(** * canopy_server.app: the HTTP facade of the Canopy RAG service

    A shallow embedding of [src/canopy_server/app.py].  The module holds no
    retrieval or generation logic: every handler marshals its request into
    one call on a collaborator (knowledge base, context engine, chat engine,
    LLM client), stamps or wraps the result and maps any exception to an
    HTTP 500.  The embedding keeps that shape:

    - Python exceptions are values of an [Outcome]; the handlers run in a
      state-and-exception monad over a [World] that records the state of
      the collaborators, the records handed to the logger, the number of
      UUIDs drawn so far and the trace of collaborator calls;
    - the collaborators are records of methods acting on an abstract
      external state [Ext];
    - the module globals [kb], [context_engine], [chat_engine], [llm] are a
      record of optional handles bound by [_init_engines]. *)

From stdpp Require Import base option strings list gmap pretty.
From Stdlib Require Import ZArith.

Local Open Scope Z_scope.
Local Open Scope string_scope.

(** ** Python runtime values *)

(** An exception other than [HTTPException], observed through the two things
    the module reads from it: [type(e).__name__] and [str(e)]. *)
Record Exception := mkException { exc_class : string; exc_str : string }.

(** [fastapi.HTTPException(status_code=..., detail=...)]. *)
Record HTTPException := mkHTTPException { status_code : Z; detail : string }.

Inductive Outcome (E A : Type) : Type :=
| Return (a : A)
| Raise (e : E).
Arguments Return {E A} a.
Arguments Raise {E A} e.

(** A lazy, single-pass iterable as its consumer sees it: the values that
    successive [next] calls yield, ended by exhaustion or by an exception
    raised while the next value was being produced. *)
Inductive Iterable (A : Type) : Type :=
| StopIteration
| IterRaise (e : Exception)
| Yield (a : A) (rest : Iterable A).
Arguments StopIteration {A}.
Arguments IterRaise {A} e.
Arguments Yield {A} a rest.

(** The values a consumer receives before the iterable stops. *)
Fixpoint yielded {A} (it : Iterable A) : list A :=
  match it with
  | StopIteration | IterRaise _ => []
  | Yield a rest => a :: yielded rest
  end.

(** The exception, if any, that ends the iteration. *)
Fixpoint iter_failure {A} (it : Iterable A) : option Exception :=
  match it with
  | StopIteration => None
  | IterRaise e => Some e
  | Yield _ rest => iter_failure rest
  end.

(** Python truthiness of an optional string: [None] and the empty string are falsy. *)
Definition truthy (s : option string) : bool :=
  match s with
  | Some s => negb (String.eqb s EmptyString)
  | None => false
  end.

(** ** Request and response records *)

Record MessageBase := mkMessage { role : string; content : string }.

Definition UserMessage (text : string) : MessageBase :=
  {| role := "user"; content := text |}.

Record ChatRequest := mkChatRequest {
  messages : list MessageBase;
  stream : bool;
  user : option string
}.

(** [canopy.models.api_models.ChatResponse]: the identifier the handler
    overwrites, and the rest of the completion (choices, usage, ...). *)
Record ChatResponse := mkChatResponse {
  response_id : string;
  response_rest : string
}.

Record StreamingChatChunk := mkChunk {
  chunk_id : string;
  chunk_rest : string
}.

Record StreamingChatResponse := mkStreamingChatResponse {
  chunks : Iterable StreamingChatChunk
}.

(** What [chat_engine.chat] returns is decided by its [stream] argument;
    the two [cast]s of the handler rely on it. *)
Definition Answer (stream : bool) : Type :=
  if stream then StreamingChatResponse else ChatResponse.

(** [APIChatResponse = Union[ChatResponse, EventSourceResponse]]. *)
Inductive APIChatResponse : Type :=
| JSONChatResponse (r : ChatResponse)
| EventSourceResponse (content_stream : Iterable string) (media_type : string).

Record ContextQueryRequest := mkContextQueryRequest {
  queries : list string;
  max_tokens : Z
}.

(** "Context is a collections of text snippets, each with a source." *)
Record ContextSnippet := mkSnippet { source : string; text : string }.

Definition ContextContentResponse : Type := list ContextSnippet.

(** [canopy.models.data_models.Context]: the content returned to the caller
    and the bookkeeping the context engine attaches to it. *)
Record Context := mkContext {
  context_content : ContextContentResponse;
  num_tokens : Z;
  debug_info : list (string * string)
}.

Record Document := mkDocument {
  doc_id : string;
  doc_text : string;
  doc_metadata : list (string * string)
}.

Record ContextUpsertRequest := mkContextUpsertRequest {
  documents : list Document;
  batch_size : Z
}.

Record ContextDeleteRequest := mkContextDeleteRequest {
  document_ids : list string
}.

Record HealthStatus := mkHealthStatus {
  pinecone_status : string;
  llm_status : string
}.

(** The acknowledgement records take no argument in this module. *)
Inductive SuccessUpsertResponse : Type := mkSuccessUpsertResponse.
Inductive SuccessDeleteResponse : Type := mkSuccessDeleteResponse.

(** ** Configuration documents *)

(** What [yaml.safe_load] returns. *)
#[warnings="-register-all"]
Inductive Yaml : Type :=
| YNull
| YBool (b : bool)
| YInt (z : Z)
| YFloat (repr : string)
| YStr (s : string)
| YSeq (items : list Yaml)
| YMap (entries : list (string * Yaml)).

(** [type(v).__name__]. *)
Definition py_type_name (v : Yaml) : string :=
  match v with
  | YNull => "NoneType"
  | YBool _ => "bool"
  | YInt _ => "int"
  | YFloat _ => "float"
  | YStr _ => "str"
  | YSeq _ => "list"
  | YMap _ => "dict"
  end.

Fixpoint assoc (key : string) (entries : list (string * Yaml)) : option Yaml :=
  match entries with
  | [] => None
  | (k, v) :: rest => if String.eqb k key then Some v else assoc key rest
  end.

(** [config.get(key, default)]: only a dict has the method. *)
Definition yaml_get (config : Yaml) (key : string) (default : Yaml)
  : Outcome Exception Yaml :=
  match config with
  | YMap entries => Return (from_option id default (assoc key entries))
  | _ => Raise (mkException "AttributeError"
                  ("'" +:+ py_type_name config +:+ "' object has no attribute 'get'"))
  end.

(** [key in config] for a dict. *)
Definition yaml_contains (config : Yaml) (key : string) : bool :=
  match config with
  | YMap entries => bool_decide (is_Some (assoc key entries))
  | _ => false
  end.

(** ** Logging *)

Inductive Level : Type := DEBUG | INFO | ERROR.

(** A call on the module's [logger]: its level, the formatted message and,
    for [logger.exception], the exception being handled.  Filtering by the
    configured level is the logging package's and is not modelled: the
    [World] keeps every record handed to the logger. *)
Record LogRecord := mkLogRecord {
  levelname : Level;
  msg : string;
  exc_info : option Exception
}.

(** ** Collaborators *)

(** The calls this module makes on the canopy library, with the arguments
    it passes. *)
Inductive Call : Type :=
| Call_chat (messages : list MessageBase) (stream : bool)
| Call_query (queries : list string) (max_context_tokens : Z)
| Call_upsert (documents : list Document) (batch_size : Z)
| Call_delete (document_ids : list string)
| Call_verify_index_connection
| Call_chat_completion (messages : list MessageBase) (max_tokens : Z)
| Call_connect
| Call_basicConfig (filename : string) (level : string)
| Call_safe_load (config_file : string)
| Call_Tokenizer_initialize
| Call_Tokenizer_initialize_from_config (config : Yaml)
| Call_KnowledgeBase (index_name : string)
| Call_ContextEngine
| Call_OpenAILLM
| Call_ChatEngine
| Call_ChatEngine_from_config (config : Yaml).

Section Canopy.

(** The state of everything outside this module: the vector index, the
    LLM provider, the tokenizer singleton. *)
Context {Ext : Type}.

(** A collaborator method: it may change the external state and may raise. *)
Definition Method (A : Type) : Type := Ext -> Outcome Exception A * Ext.

Record BaseLLM := mkLLM {
  llm_class_name : string;   (* llm.__class__.__name__ *)
  llm_chat_completion : list MessageBase -> Z -> Method ChatResponse
}.

Record KnowledgeBase := mkKnowledgeBase {
  kb_index_name : string;    (* kb._index_name *)
  kb_verify_index_connection : Method unit;
  kb_upsert : list Document -> Z -> Method unit;
  kb_delete : list string -> Method unit;
  kb_connect : Method unit
}.

Record ContextEngine := mkContextEngine {
  context_engine_query : list string -> Z -> Method Context;
  context_engine_knowledge_base : KnowledgeBase
}.

Record ChatEngine := mkChatEngine {
  chat_engine_chat : list MessageBase -> forall stream : bool, Method (Answer stream);
  chat_engine_llm : BaseLLM;
  chat_engine_context_engine : ContextEngine
}.

(** The four module globals once startup has bound them. *)
Record App := mkApp {
  kb : KnowledgeBase;
  context_engine : ContextEngine;
  chat_engine : ChatEngine;
  llm : BaseLLM
}.

(** The same globals during startup: declared, not yet assigned. *)
Record Globals := mkGlobals {
  g_kb : option KnowledgeBase;
  g_context_engine : option ContextEngine;
  g_chat_engine : option ChatEngine;
  g_llm : option BaseLLM
}.

Definition unbound : Globals := mkGlobals None None None None.

Definition bound (g : Globals) : option App :=
  match g_kb g, g_context_engine g, g_chat_engine g, g_llm g with
  | Some k, Some c, Some e, Some l => Some (mkApp k c e l)
  | _, _, _, _ => None
  end.

(** ** The world a handler runs in *)

Record World := mkWorld {
  ext : Ext;                 (* state of the collaborators *)
  uuid_draws : nat;          (* how many UUIDs the process has drawn *)
  log : list LogRecord;      (* records handed to [logger], oldest first *)
  trace : list Call;         (* collaborator calls, oldest first *)
  globals : Globals
}.

(** Statements run in order; an exception stops the block and keeps the
    effects made so far. *)
Definition M (E A : Type) : Type := World -> Outcome E A * World.

Definition ret {E A} (a : A) : M E A := fun w => (Return a, w).

Definition raise {E A} (e : E) : M E A := fun w => (Raise e, w).

Definition bind {E A B} (m : M E A) (k : A -> M E B) : M E B :=
  fun w =>
    match m w with
    | (Return a, w') => k a w'
    | (Raise e, w') => (Raise e, w')
    end.

(** [try: body / except Exception as e: handler e]. *)
Definition try_except {E A} (body : M Exception A) (handler : Exception -> M E A)
  : M E A :=
  fun w =>
    match body w with
    | (Return a, w') => (Return a, w')
    | (Raise e, w') => handler e w'
    end.

#[global] Instance M_ret {E} : MRet (M E) := fun _ a => ret a.
#[global] Instance M_bind {E} : MBind (M E) := fun _ _ k m => bind m k.

Definition of_outcome {E A} (o : Outcome E A) : M E A := fun w => (o, w).

(** A call on a collaborator: recorded in the trace, then run on the
    external state.  [run_in_threadpool(f, ...)] awaits [f(...)] and hands
    back its result or its exception, so it is such a call. *)
Definition invoke {A} (c : Call) (f : Method A) : M Exception A :=
  fun w =>
    let '(r, x) := f (ext w) in
    (r, mkWorld x (uuid_draws w) (log w) (trace w ++ [c]) (globals w)).

Definition run_in_threadpool {A} (c : Call) (f : Method A) : M Exception A :=
  invoke c f.

Definition emit {E} (r : LogRecord) : M E unit :=
  fun w => (Return tt, mkWorld (ext w) (uuid_draws w) (log w ++ [r]) (trace w) (globals w)).

Definition logger_debug {E} (m : string) : M E unit := emit (mkLogRecord DEBUG m None).
Definition logger_info {E} (m : string) : M E unit := emit (mkLogRecord INFO m None).

(** [logger.exception(m)] inside an [except] clause handling [e]. *)
Definition logger_exception {E} (m : string) (e : Exception) : M E unit :=
  emit (mkLogRecord ERROR m (Some e)).

Definition set_globals {E} (g : Globals) : M E unit :=
  fun w => (Return tt, mkWorld (ext w) (uuid_draws w) (log w) (trace w) g).

Definition get_globals {E} : M E Globals := fun w => (Return (globals w), w).

End Canopy.

Arguments BaseLLM : clear implicits.
Arguments KnowledgeBase : clear implicits.
Arguments ContextEngine : clear implicits.
Arguments ChatEngine : clear implicits.
Arguments App : clear implicits.
Arguments Globals : clear implicits.
Arguments World : clear implicits.

(** Construction and loading entry points of the canopy library and of the
    platform that [_init_logging], [_init_engines] and [_load_config] use. *)
Record Library {Ext : Type} := mkLibrary {
  (* logging.FileHandler(filename=...) then logging.basicConfig(level=...) *)
  logging_basicConfig : string -> string -> Method (Ext:=Ext) unit;
  (* open(config_file, "r") then yaml.safe_load(f) *)
  safe_load : string -> Method (Ext:=Ext) Yaml;
  Tokenizer_initialize : Method (Ext:=Ext) unit;
  Tokenizer_initialize_from_config : Yaml -> Method (Ext:=Ext) unit;
  KnowledgeBase_new : string -> Method (Ext:=Ext) (KnowledgeBase Ext);
  ContextEngine_new : KnowledgeBase Ext -> Method (Ext:=Ext) (ContextEngine Ext);
  OpenAILLM_new : Method (Ext:=Ext) (BaseLLM Ext);
  ChatEngine_new : ContextEngine Ext -> BaseLLM Ext -> Method (Ext:=Ext) (ChatEngine Ext);
  ChatEngine_from_config : Yaml -> Method (Ext:=Ext) (ChatEngine Ext)
}.
Arguments Library : clear implicits.

(** ** Request handlers *)

Section Handlers.

Context {Ext : Type}.

(** [uuid.uuid4()]: the [n]-th identifier the process draws from the
    operating system's entropy. *)
Variable uuid4_at : nat -> string.

(** pydantic's [chunk.json()]. *)
Variable chunk_json : StreamingChatChunk -> string.

(** The bound globals. *)
Variable app : App Ext.

Definition uuid4 {E} : M (Ext:=Ext) E string :=
  fun w =>
    (Return (uuid4_at (uuid_draws w)),
     mkWorld (ext w) (S (uuid_draws w)) (log w) (trace w) (globals w)).

(** [l[-1]]. *)
Definition last_item {A} (l : list A) : Outcome Exception A :=
  match last l with
  | Some a => Return a
  | None => Raise (mkException "IndexError" "list index out of range")
  end.

(** The generator of lines 94-98, as the transport consumes it: each chunk
    has its [id] overwritten and is serialised at once, so what is yielded
    is a string that later mutation of the chunk cannot reach. *)
Fixpoint stringify_chunks (question_id : string) (it : Iterable StreamingChatChunk)
  : Iterable string :=
  match it with
  | StopIteration => StopIteration
  | IterRaise e => IterRaise e
  | Yield chunk rest =>
      let chunk := mkChunk question_id (chunk_rest chunk) in
      let data := chunk_json chunk in
      Yield data (stringify_chunks question_id rest)
  end.

Definition stringify_content (question_id : string) (response : StreamingChatResponse)
  : Iterable string :=
  stringify_chunks question_id (chunks response).

(** The statements of the [try] block that follow the binding of
    [question_id]. *)
Definition chat_body (request : ChatRequest) (question_id : string)
  : M (Ext:=Ext) Exception APIChatResponse :=
  m ← of_outcome (last_item (messages request));
  logger_debug ("Received chat request: " +:+ content m);;
  answer ← run_in_threadpool (Call_chat (messages request) (stream request))
             (chat_engine_chat (chat_engine app) (messages request) (stream request));
  (if stream request as b return Answer b -> M Exception APIChatResponse
   then fun answer =>
          let content_stream := stringify_content question_id answer in
          mret (EventSourceResponse content_stream "text/event-stream")
   else fun answer =>
          let chat_response := mkChatResponse question_id (response_rest answer) in
          mret (JSONChatResponse chat_response)) answer.

(** POST /context/chat/completions.  The first two statements of the [try]
    block read an attribute of the validated request and draw a UUID;
    neither raises, so [question_id] is bound whenever the [except] clause
    runs and they are written before the protected block. *)
Definition chat (request : ChatRequest) : M (Ext:=Ext) HTTPException APIChatResponse :=
  let session_id :=
    if truthy (user request) then default EmptyString (user request) else "None" in
  question_id ← uuid4;
  try_except (chat_body request question_id)
    (fun e =>
       logger_exception ("Chat with question_id " +:+ question_id +:+ " failed") e;;
       raise (mkHTTPException 500 ("Internal Service Error: " +:+ exc_str e))).

(** The exception, if any, raised anywhere in the flow of one chat request:
    in the handler or, once the handler has returned an event stream, while
    the transport pulls the fragments out of it. *)
Definition chat_flow_exception (request : ChatRequest) (w : World Ext)
  : option Exception :=
  match uuid4 (E:=Exception) w with
  | (Return question_id, w1) =>
      match chat_body request question_id w1 with
      | (Raise e, _) => Some e
      | (Return (EventSourceResponse content_stream _), _) => iter_failure content_stream
      | (Return (JSONChatResponse _), _) => None
      end
  | (Raise _, _) => None
  end.

(** Every exception of the flow, streaming included, reaches the caller as
    the 500 of the [except] clause. *)
Definition chat_surfaces_every_exception : Prop :=
  forall (request : ChatRequest) (w : World Ext) (e : Exception),
    chat_flow_exception request w = Some e ->
    fst (chat request w)
    = Raise (mkHTTPException 500 ("Internal Service Error: " +:+ exc_str e)).

(** A fragment is the serialisation of a chunk carrying [question_id]. *)
Definition stamped (question_id : string) (fragment : string) : Prop :=
  exists chunk : StreamingChatChunk,
    fragment = chunk_json chunk /\ chunk_id chunk = question_id.

(** POST /context/query. *)
Definition query (request : ContextQueryRequest)
  : M (Ext:=Ext) HTTPException ContextContentResponse :=
  try_except
    (context ← run_in_threadpool (Call_query (queries request) (max_tokens request))
                 (context_engine_query (context_engine app)
                    (queries request) (max_tokens request));
     mret (context_content context))
    (fun e =>
       logger_exception (exc_str e) e;;
       raise (mkHTTPException 500 ("Internal Service Error: " +:+ exc_str e))).

(** POST /context/upsert. *)
Definition upsert (request : ContextUpsertRequest)
  : M (Ext:=Ext) HTTPException SuccessUpsertResponse :=
  try_except
    (logger_info ("Upserting " +:+ pretty (length (documents request)) +:+ " documents");;
     run_in_threadpool (Call_upsert (documents request) (batch_size request))
       (kb_upsert (kb app) (documents request) (batch_size request));;
     mret mkSuccessUpsertResponse)
    (fun e =>
       logger_exception (exc_str e) e;;
       raise (mkHTTPException 500 ("Internal Service Error: " +:+ exc_str e))).

(** POST /context/delete. *)
Definition delete (request : ContextDeleteRequest)
  : M (Ext:=Ext) HTTPException SuccessDeleteResponse :=
  try_except
    (logger_info ("Delete " +:+ pretty (length (document_ids request)) +:+ " documents");;
     run_in_threadpool (Call_delete (document_ids request))
       (kb_delete (kb app) (document_ids request));;
     mret mkSuccessDeleteResponse)
    (fun e =>
       logger_exception (exc_str e) e;;
       raise (mkHTTPException 500 ("Internal Service Error: " +:+ exc_str e))).

(** GET /health. *)
Definition health_check : M (Ext:=Ext) HTTPException HealthStatus :=
  try_except
    (run_in_threadpool Call_verify_index_connection
       (kb_verify_index_connection (kb app)))
    (fun e =>
       let err_msg := "Failed connecting to Pinecone Index " +:+ kb_index_name (kb app) in
       logger_exception err_msg e;;
       raise (mkHTTPException 500 (err_msg +:+ ". Error: " +:+ exc_str e)));;
  try_except
    (let msg := UserMessage "This is a health check. Are you alive? Be concise" in
     run_in_threadpool (Call_chat_completion [msg] 50)
       (llm_chat_completion (llm app) [msg] 50);;
     mret tt)
    (fun e =>
       let err_msg := "Failed to communicate with " +:+ llm_class_name (llm app) in
       logger_exception err_msg e;;
       raise (mkHTTPException 500 (err_msg +:+ ". Error: " +:+ exc_str e)));;
  mret (mkHealthStatus "OK" "OK").

End Handlers.

(** ** Startup *)

(** [str.upper()] on the ASCII letters, which is all a level name has. *)
Definition upper_ascii (c : Ascii.ascii) : Ascii.ascii :=
  let n := Ascii.nat_of_ascii c in
  if ((97 <=? n) && (n <=? 122))%nat then Ascii.ascii_of_nat (n - 32) else c.

Fixpoint upper (s : string) : string :=
  match s with
  | EmptyString => EmptyString
  | String c rest => String (upper_ascii c) (upper rest)
  end.

Definition ValueError (m : string) : Exception := mkException "ValueError" m.
Definition ConfigError (m : string) : Exception := mkException "ConfigError" m.
Definition NameError (name : string) : Exception :=
  mkException "NameError" ("name '" +:+ name +:+ "' is not defined").

Section Startup.

Context {Ext : Type}.

(** [os.environ] after [load_dotenv()]. *)
Variable environ : gmap string string.

Variable lib : Library Ext.

(** [os.getenv(key)]. *)
Definition getenv (key : string) : option string := environ !! key.

Definition assign_kb (v : KnowledgeBase Ext) : M (Ext:=Ext) Exception unit :=
  g ← get_globals;
  set_globals (mkGlobals (Some v) (g_context_engine g) (g_chat_engine g) (g_llm g)).

Definition assign_context_engine (v : ContextEngine Ext) : M (Ext:=Ext) Exception unit :=
  g ← get_globals;
  set_globals (mkGlobals (g_kb g) (Some v) (g_chat_engine g) (g_llm g)).

Definition assign_chat_engine (v : ChatEngine Ext) : M (Ext:=Ext) Exception unit :=
  g ← get_globals;
  set_globals (mkGlobals (g_kb g) (g_context_engine g) (Some v) (g_llm g)).

Definition assign_llm (v : BaseLLM Ext) : M (Ext:=Ext) Exception unit :=
  g ← get_globals;
  set_globals (mkGlobals (g_kb g) (g_context_engine g) (g_chat_engine g) (Some v)).

(** Reading the global [kb]. *)
Definition global_kb : M (Ext:=Ext) Exception (KnowledgeBase Ext) :=
  g ← get_globals;
  match g_kb g with
  | Some v => mret v
  | None => raise (NameError "kb")
  end.

Definition _init_logging : M (Ext:=Ext) Exception unit :=
  let filename := default "canopy.log" (getenv "CE_LOG_FILENAME") in
  let level := upper (default "INFO" (getenv "CE_LOG_LEVEL")) in
  invoke (Call_basicConfig filename level) (logging_basicConfig lib filename level).

(** The arguments [_init_logging] configures the logging package with. *)
Definition log_filename : string := default "canopy.log" (getenv "CE_LOG_FILENAME").
Definition log_level : string := upper (default "INFO" (getenv "CE_LOG_LEVEL")).

Definition _load_config (config_file : string) : M (Ext:=Ext) Exception unit :=
  logger_info ("Initializing engines with config file " +:+ config_file);;
  config ← try_except
             (invoke (Call_safe_load config_file) (safe_load lib config_file))
             (fun e =>
                logger_exception ("Failed to load config file " +:+ config_file) e;;
                raise (ConfigError ("Failed to load config file " +:+ config_file
                                    +:+ ". Error: " +:+ exc_str e)));
  tokenizer_config ← of_outcome (yaml_get config "tokenizer" (YMap []));
  invoke (Call_Tokenizer_initialize_from_config tokenizer_config)
    (Tokenizer_initialize_from_config lib tokenizer_config);;
  if negb (yaml_contains config "chat_engine")
  then raise (ConfigError ("Config file " +:+ config_file
                           +:+ " must contain a 'chat_engine' section"))
  else
    chat_engine_config ← of_outcome (yaml_get config "chat_engine" YNull);
    chat_engine ← try_except
                    (invoke (Call_ChatEngine_from_config chat_engine_config)
                       (ChatEngine_from_config lib chat_engine_config))
                    (fun e =>
                       logger_exception
                         ("Failed to initialize chat engine from config file "
                          +:+ config_file) e;;
                       raise (ConfigError
                                ("Failed to initialize chat engine from config file "
                                 +:+ config_file +:+ ". Error: " +:+ exc_str e)));
    assign_chat_engine chat_engine;;
    let llm := chat_engine_llm chat_engine in
    assign_llm llm;;
    let context_engine := chat_engine_context_engine chat_engine in
    assign_context_engine context_engine;;
    assign_kb (context_engine_knowledge_base context_engine).

Definition _init_engines : M (Ext:=Ext) Exception unit :=
  let index_name := getenv "INDEX_NAME" in
  if negb (truthy index_name)
  then raise (ValueError "INDEX_NAME environment variable must be set")
  else
    let index_name := default EmptyString index_name in
    let config_file := getenv "CANOPY_CONFIG_FILE" in
    (if truthy config_file
     then _load_config (default EmptyString config_file)
     else
       logger_info ("Did not find config file. Initializing engines with default "
                    +:+ "configuration");;
       invoke Call_Tokenizer_initialize (Tokenizer_initialize lib);;
       kb ← invoke (Call_KnowledgeBase index_name) (KnowledgeBase_new lib index_name);
       assign_kb kb;;
       context_engine ← invoke Call_ContextEngine (ContextEngine_new lib kb);
       assign_context_engine context_engine;;
       llm ← invoke Call_OpenAILLM (OpenAILLM_new lib);
       assign_llm llm;;
       chat_engine ← invoke Call_ChatEngine (ChatEngine_new lib context_engine llm);
       assign_chat_engine chat_engine);;
    kb ← global_kb;
    invoke Call_connect (kb_connect kb).

(** The [startup] event handler. *)
Definition startup : M (Ext:=Ext) Exception unit :=
  _init_logging;;
  _init_engines.

End Startup.

(** ** The process: startup, then requests *)

(** The routes registered on [app].  GET /shutdown interrupts the process
    and is outside what a response can describe; it has no constructor. *)
Inductive Request : Type :=
| POST_chat (request : ChatRequest)
| POST_query (request : ContextQueryRequest)
| POST_upsert (request : ContextUpsertRequest)
| POST_delete (request : ContextDeleteRequest)
| GET_health.

Inductive Response : Type :=
| ChatResult (r : Outcome HTTPException APIChatResponse)
| QueryResult (r : Outcome HTTPException ContextContentResponse)
| UpsertResult (r : Outcome HTTPException SuccessUpsertResponse)
| DeleteResult (r : Outcome HTTPException SuccessDeleteResponse)
| HealthResult (r : Outcome HTTPException HealthStatus).

Section Process.

Context {Ext : Type}.
Variable uuid4_at : nat -> string.
Variable chunk_json : StreamingChatChunk -> string.
Variable environ : gmap string string.
Variable lib : Library Ext.

Definition route (app : App Ext) (r : Request) (w : World Ext) : Response * World Ext :=
  match r with
  | POST_chat request =>
      let '(o, w') := chat uuid4_at chunk_json app request w in (ChatResult o, w')
  | POST_query request =>
      let '(o, w') := query app request w in (QueryResult o, w')
  | POST_upsert request =>
      let '(o, w') := upsert app request w in (UpsertResult o, w')
  | POST_delete request =>
      let '(o, w') := delete app request w in (DeleteResult o, w')
  | GET_health =>
      let '(o, w') := health_check app w in (HealthResult o, w')
  end.

(** Requests handled one after the other by a started application: each
    handler runs to completion before the next starts.  The server may
    interleave handlers where they await the thread pool; what is stated
    over [serve] below does not depend on the order of the calls. *)
Fixpoint serve (app : App Ext) (rs : list Request) (w : World Ext)
  : list Response * World Ext :=
  match rs with
  | [] => ([], w)
  | r :: rest =>
      let '(o, w1) := route app r w in
      let '(os, w2) := serve app rest w1 in
      (o :: os, w2)
  end.

(** The server runs the startup event before it accepts a request; an
    exception there ends the process and no route is ever dispatched. *)
Definition run (rs : list Request) (w : World Ext)
  : Outcome Exception (list Response) * World Ext :=
  match startup environ lib w with
  | (Raise e, w') => (Raise e, w')
  | (Return _, w') =>
      match bound (globals w') with
      | Some app => let '(os, w'') := serve app rs w' in (Return os, w'')
      | None => (Raise (NameError "chat_engine"), w')
      end
  end.

(** Every configuration file that loads and has no "chat_engine" entry
    makes startup end with a [ConfigError]. *)
Definition missing_chat_engine_is_ConfigError : Prop :=
  forall (rs : list Request) (w : World Ext) (config_file : string),
    getenv environ "CANOPY_CONFIG_FILE" = Some config_file ->
    truthy (Some config_file) = true ->
    (forall x, exists config x',
        safe_load lib config_file x = (Return config, x')
        /\ yaml_contains config "chat_engine" = false) ->
    exists m w', run rs w = (Raise (ConfigError m), w').

End Process.

(** ** Shutdown and the entry point *)

Inductive Signal : Type := SIGINT.

(** [multiprocessing.current_process()], through the three attributes the
    shutdown handler reads.  [_parent_pid] is [None] in a main process. *)
Record CurrentProcess := mkCurrentProcess {
  proc_name : string;
  proc_pid : Z;
  proc_parent_pid : option Z
}.

Inductive ShutdownResponse : Type := mkShutdownResponse.

(** [needle in haystack] on two strings. *)
Fixpoint contains (needle haystack : string) : bool :=
  String.prefix needle haystack
  || match haystack with
     | EmptyString => false
     | String _ rest => contains needle rest
     end.

Section Shutdown.

Context {Ext : Type}.
Variable current_process : CurrentProcess.

(** [os.kill(pid, sig)]; a [pid] that is not an integer is the operating
    system interface's to reject. *)
Variable os_kill : option Z -> Signal -> Method (Ext:=Ext) unit.

(** A call made directly, outside the collaborators the trace records. *)
Definition perform {A} (f : Method A) : M (Ext:=Ext) Exception A :=
  fun w =>
    let '(r, x) := f (ext w) in
    (r, mkWorld x (uuid_draws w) (log w) (trace w) (globals w)).

(** The process the interrupt goes to. *)
Definition shutdown_pid (proc : CurrentProcess) : option Z :=
  if contains "SpawnProcess" (proc_name proc)
  then proc_parent_pid proc
  else Some (proc_pid proc).

(** GET /shutdown.  The handler has no [try]. *)
Definition shutdown : M (Ext:=Ext) Exception ShutdownResponse :=
  logger_info "Shutting down";;
  let proc := current_process in
  let pid := shutdown_pid proc in
  perform (os_kill pid SIGINT);;
  mret mkShutdownResponse.

End Shutdown.

Section EntryPoint.

Context {Ext : Type}.
Variable uuid4_at : nat -> string.
Variable chunk_json : StreamingChatChunk -> string.
Variable environ : gmap string string.
Variable lib : Library Ext.

(** [os.environ] once [start] has looked at its [config_file] argument. *)
Definition start_environ (config_file : option string) : gmap string string :=
  if truthy config_file
  then <["CANOPY_CONFIG_FILE" := default EmptyString config_file]> environ
  else environ.

(** [start(config_file=...)]: host, port and reload go to uvicorn, which
    runs the application in the environment [start] leaves. *)
Definition start (config_file : option string) (rs : list Request) (w : World Ext)
  : Outcome Exception (list Response) * World Ext :=
  run uuid4_at chunk_json (start_environ config_file) lib rs w.

End EntryPoint.

(** ** What a route may do *)

(** The error a response carries, if it is one. *)
Definition response_error (r : Response) : option HTTPException :=
  match r with
  | ChatResult (Raise h) | QueryResult (Raise h) | UpsertResult (Raise h)
  | DeleteResult (Raise h) | HealthResult (Raise h) => Some h
  | _ => None
  end.

(** The exception, if any, that the collaborators raise when they are
    called as a route calls them: read off the collaborators alone, not
    off the handler. *)
Definition route_failure {Ext : Type} (app : App Ext) (r : Request) (x : Ext)
  : option Exception :=
  let failure {A} (o : Outcome Exception A) : option Exception :=
    match o with
    | Raise e => Some e
    | Return _ => None
    end in
  match r with
  | POST_chat request =>
      match messages request with
      | [] => Some (mkException "IndexError" "list index out of range")
      | _ :: _ =>
          failure (fst (chat_engine_chat (chat_engine app) (messages request)
                          (stream request) x))
      end
  | POST_query request =>
      failure (fst (context_engine_query (context_engine app) (queries request)
                      (max_tokens request) x))
  | POST_upsert request =>
      failure (fst (kb_upsert (kb app) (documents request) (batch_size request) x))
  | POST_delete request =>
      failure (fst (kb_delete (kb app) (document_ids request) x))
  | GET_health =>
      match kb_verify_index_connection (kb app) x with
      | (Raise e, _) => Some e
      | (Return _, x') =>
          failure (fst (llm_chat_completion (llm app)
                          [UserMessage "This is a health check. Are you alive? Be concise"]
                          50 x'))
      end
  end.

(** What the detail of a route's 500 puts before the text of the
    exception. *)
Definition error_prefix {Ext : Type} (app : App Ext) (r : Request) (x : Ext) : string :=
  match r with
  | GET_health =>
      match kb_verify_index_connection (kb app) x with
      | (Raise _, _) =>
          "Failed connecting to Pinecone Index " +:+ kb_index_name (kb app) +:+ ". Error: "
      | (Return _, _) =>
          "Failed to communicate with " +:+ llm_class_name (llm app) +:+ ". Error: "
      end
  | _ => "Internal Service Error: "
  end.

(** The collaborator calls of a route, in the order the handler makes
    them when nothing fails. *)
Definition route_calls (r : Request) : list Call :=
  match r with
  | POST_chat request => [Call_chat (messages request) (stream request)]
  | POST_query request => [Call_query (queries request) (max_tokens request)]
  | POST_upsert request => [Call_upsert (documents request) (batch_size request)]
  | POST_delete request => [Call_delete (document_ids request)]
  | GET_health =>
      [Call_verify_index_connection;
       Call_chat_completion
         [UserMessage "This is a health check. Are you alive? Be concise"] 50]
  end.

(** ** An in-memory canopy, for concrete runs *)

Module Memory.

(** The external state: the documents of the index, by identifier. *)
Definition Store : Type := gmap string string.

Definition put_all (docs : list Document) (s : Store) : Store :=
  foldl (fun acc d => <[doc_id d := doc_text d]> acc) s docs.

Definition drop_all (ids : list string) (s : Store) : Store :=
  foldl (fun acc i => base.delete i acc) s ids.

Definition mem_kb (index_name : string) : KnowledgeBase Store :=
  {| kb_index_name := index_name;
     kb_verify_index_connection := fun s => (Return tt, s);
     kb_upsert := fun docs _ s => (Return tt, put_all docs s);
     kb_delete := fun ids s => (Return tt, drop_all ids s);
     kb_connect := fun s => (Return tt, s) |}.

(** Answers each query with the document of that identifier, if stored. *)
Definition lookup_all (qs : list string) (s : Store) : ContextContentResponse :=
  omap (fun q => mkSnippet q <$> s !! q) qs.

Definition mem_context_engine (k : KnowledgeBase Store) : ContextEngine Store :=
  {| context_engine_query := fun qs budget s =>
       (Return (mkContext (lookup_all qs s) budget [("engine", "memory")]), s);
     context_engine_knowledge_base := k |}.

Definition mem_llm : BaseLLM Store :=
  {| llm_class_name := "OpenAILLM";
     llm_chat_completion := fun _ _ s => (Return (mkChatResponse "llm-0" "alive"), s) |}.

(** An LLM client whose provider is unreachable. *)
Definition mem_llm_down : BaseLLM Store :=
  {| llm_class_name := "OpenAILLM";
     llm_chat_completion := fun _ _ s =>
       (Raise (mkException "APIConnectionError" "Connection error."), s) |}.

(** A chat engine that streams the given chunks, or returns one answer. *)
Definition mem_chat_engine (stream_of : Iterable StreamingChatChunk)
    (c : ContextEngine Store) (l : BaseLLM Store) : ChatEngine Store :=
  {| chat_engine_chat := fun _ stream s =>
       (Return (match stream return Answer stream with
                | true => mkStreamingChatResponse stream_of
                | false => mkChatResponse "engine-0" "an answer"
                end), s);
     chat_engine_llm := l;
     chat_engine_context_engine := c |}.

Definition two_chunks : Iterable StreamingChatChunk :=
  Yield (mkChunk "a" "Hel") (Yield (mkChunk "b" "lo") StopIteration).

(** The provider drops the connection after the first chunk. *)
Definition broken_stream : Iterable StreamingChatChunk :=
  Yield (mkChunk "a" "Hel")
    (IterRaise (mkException "APIError" "stream interrupted")).

Definition app_with (stream_of : Iterable StreamingChatChunk) : App Store :=
  let k := mem_kb "canopy--test" in
  let c := mem_context_engine k in
  {| kb := k; context_engine := c; chat_engine := mem_chat_engine stream_of c mem_llm;
     llm := mem_llm |}.

Definition app : App Store := app_with two_chunks.

Definition uuid4_at (n : nat) : string := "uuid-" +:+ pretty n.

Definition chunk_json (c : StreamingChatChunk) : string :=
  "{'id': '" +:+ chunk_id c +:+ "', 'delta': '" +:+ chunk_rest c +:+ "'}".

Definition world (s : Store) : World Store :=
  mkWorld s 0 [] [] unbound.

Definition library (config : Outcome Exception Yaml)
    (tokenizer : Outcome Exception unit) : Library Store :=
  {| logging_basicConfig := fun _ _ s => (Return tt, s);
     safe_load := fun _ s => (config, s);
     Tokenizer_initialize := fun s => (Return tt, s);
     Tokenizer_initialize_from_config := fun _ s => (tokenizer, s);
     KnowledgeBase_new := fun name s => (Return (mem_kb name), s);
     ContextEngine_new := fun k s => (Return (mem_context_engine k), s);
     OpenAILLM_new := fun s => (Return mem_llm, s);
     ChatEngine_new := fun c l s => (Return (mem_chat_engine two_chunks c l), s);
     ChatEngine_from_config := fun _ s =>
       (Return (mem_chat_engine two_chunks
                  (mem_context_engine (mem_kb "from-config")) mem_llm), s) |}.

(** A configuration that names an index and a configuration file. *)
Definition environ : gmap string string :=
  {[ "INDEX_NAME" := "canopy--test"; "CANOPY_CONFIG_FILE" := "canopy.yaml" ]}.

(** A file with a tokenizer section only. *)
Definition tokenizer_only : Yaml :=
  YMap [("tokenizer", YMap [("type", YStr "OpenAITokenizer")])].

Definition tokenizer_rejects : Outcome Exception unit :=
  Raise (mkException "ValueError" "Unknown tokenizer type").

(** A knowledge base whose index cannot be reached at connection time. *)
Definition mem_kb_unreachable (index_name : string) : KnowledgeBase Store :=
  {| kb_index_name := index_name;
     kb_verify_index_connection := fun s => (Return tt, s);
     kb_upsert := fun docs _ s => (Return tt, put_all docs s);
     kb_delete := fun ids s => (Return tt, drop_all ids s);
     kb_connect := fun s =>
       (Raise (mkException "RuntimeError" "index does not exist"), s) |}.

(** The library with the knowledge base, the loader and the chat engine
    factory given. *)
Definition library_with (new_kb : string -> KnowledgeBase Store)
    (config : Outcome Exception Yaml)
    (from_config : Outcome Exception (ChatEngine Store)) : Library Store :=
  {| logging_basicConfig := fun _ _ s => (Return tt, s);
     safe_load := fun _ s => (config, s);
     Tokenizer_initialize := fun s => (Return tt, s);
     Tokenizer_initialize_from_config := fun _ s => (Return tt, s);
     KnowledgeBase_new := fun name s => (Return (new_kb name), s);
     ContextEngine_new := fun k s => (Return (mem_context_engine k), s);
     OpenAILLM_new := fun s => (Return mem_llm, s);
     ChatEngine_new := fun c l s => (Return (mem_chat_engine two_chunks c l), s);
     ChatEngine_from_config := fun _ s => (from_config, s) |}.

Definition environ_default : gmap string string :=
  {[ "INDEX_NAME" := "canopy--test" ]}.

Definition with_chat_engine : Yaml :=
  YMap [("chat_engine", YMap [("llm", YStr "OpenAILLM")])].

(** A spawned worker of pid 4242 under a server of pid 4000. *)
Definition worker : CurrentProcess := mkCurrentProcess "SpawnProcess-1" 4242 (Some 4000).

(** The kernel as the store sees it: signalling changes no document. *)
Definition os_kill (pid : option Z) (sig : Signal) : Method (Ext:=Store) unit :=
  fun s =>
    match pid with
    | Some _ => (Return tt, s)
    | None => (Raise (mkException "TypeError" "an integer is required"), s)
    end.

(** A chat engine whose provider cannot be reached. *)
Definition mem_chat_engine_down (c : ContextEngine Store) (l : BaseLLM Store)
  : ChatEngine Store :=
  {| chat_engine_chat := fun _ stream s =>
       (Raise (mkException "APIConnectionError" "Connection error."), s);
     chat_engine_llm := l;
     chat_engine_context_engine := c |}.

Definition app_engine_down : App Store :=
  let k := mem_kb "canopy--test" in
  let c := mem_context_engine k in
  {| kb := k; context_engine := c; chat_engine := mem_chat_engine_down c mem_llm;
     llm := mem_llm |}.

End Memory.

(** * Properties *)

(** Runs a handler symbolically: unfolds the monad and the logging and
    call primitives. *)
Ltac run_monad :=
  unfold try_except, mbind, mret, M_bind, M_ret, bind, ret, raise, of_outcome,
    run_in_threadpool, invoke, logger_debug, logger_info, logger_exception, emit,
    set_globals, get_globals, uuid4 in *;
  cbn [fst snd ext uuid_draws log trace globals] in *.

Section IterableFacts.

Context (chunk_json : StreamingChatChunk -> string).

Lemma yielded_stringify_chunks (question_id : string) (it : Iterable StreamingChatChunk) :
  yielded (stringify_chunks chunk_json question_id it)
  = (fun c => chunk_json (mkChunk question_id (chunk_rest c))) <$> yielded it.
Proof.
  induction it as [| e | c rest IH]; cbn; [reflexivity | reflexivity |].
  now rewrite IH.
Qed.

(** The generator has no [try]: what ends the chunk iterable ends the event
    stream the same way. *)
Lemma iter_failure_stringify_chunks (question_id : string) (it : Iterable StreamingChatChunk) :
  iter_failure (stringify_chunks chunk_json question_id it) = iter_failure it.
Proof.
  induction it as [| e | c rest IH]; cbn; auto.
Qed.

Lemma stringify_chunks_stamped (question_id : string) (it : Iterable StreamingChatChunk) :
  Forall (stamped chunk_json question_id)
    (yielded (stringify_chunks chunk_json question_id it)).
Proof.
  induction it as [| e | c rest IH]; cbn; constructor; [| exact IH].
  exists (mkChunk question_id (chunk_rest c)). split; reflexivity.
Qed.

End IterableFacts.

Section ChatProperties.

Local Open Scope nat_scope.

Context {Ext : Type}.
Variable uuid4_at : nat -> string.
Variable chunk_json : StreamingChatChunk -> string.
Variable app : App Ext.

(** The handler draws exactly one UUID, whatever happens next. *)
Lemma chat_body_draws (request : ChatRequest) (question_id : string) (w : World Ext) :
  uuid_draws (snd (chat_body chunk_json app request question_id w)) = uuid_draws w.
Proof.
  unfold chat_body. run_monad.
  destruct (last_item (messages request)) as [m | e]; cbn; [| reflexivity].
  destruct (chat_engine_chat _ _ _ _) as [[ans | e] x]; cbn; [| reflexivity].
  destruct request as [msgs [] u]; reflexivity.
Qed.

Lemma chat_draws (request : ChatRequest) (w : World Ext) :
  uuid_draws (snd (chat uuid4_at chunk_json app request w)) = S (uuid_draws w).
Proof.
  unfold chat. run_monad.
  pose proof (chat_body_draws request (uuid4_at (uuid_draws w))
                (mkWorld (ext w) (S (uuid_draws w)) (log w) (trace w) (globals w))) as H.
  destruct (chat_body _ _ _ _ _) as [[a | e] w']; cbn in *; exact H.
Qed.

(** Whatever the handler raises is a 500. *)
Lemma chat_raises_500 (request : ChatRequest) (w w' : World Ext) (h : HTTPException) :
  chat uuid4_at chunk_json app request w = (Raise h, w') -> status_code h = 500%Z.
Proof.
  unfold chat. run_monad.
  destruct (chat_body _ _ _ _ _) as [[a | e] w1]; intros [= <- <-]; reflexivity.
Qed.




(** C1 (amended).  An exception raised before the handler returns leaves
    through the [except] clause, with or without streaming.  There are two
    such exceptions: the IndexError of [request.messages[-1]] on an empty
    message list, and whatever the chat engine's [chat] call raises on a
    non-empty one.  In both cases the handler returns no response and
    raises an [HTTPException] with status 500 whose detail is "Internal
    Service Error: " followed by the text of that exception, and the last
    record handed to the logger is the ERROR record that names the
    question identifier drawn for the request and carries the exception.
    What is raised later, while the fragments of a streamed answer are
    produced, is outside this guarantee. *)
Theorem chat_handler_exception_is_500
    (request : ChatRequest) (w : World Ext) (e : Exception) :
  (messages request = []
   /\ e = mkException "IndexError" "list index out of range")
  \/ (messages request <> []
      /\ fst (chat_engine_chat (chat_engine app) (messages request) (stream request)
                (ext w)) = Raise e) ->
  exists w',
    chat uuid4_at chunk_json app request w
    = (Raise (mkHTTPException 500 ("Internal Service Error: " +:+ exc_str e)), w')
    /\ last (log w')
       = Some (mkLogRecord ERROR
                 ("Chat with question_id " +:+ uuid4_at (uuid_draws w) +:+ " failed")
                 (Some e))
    /\ uuid_draws w' = S (uuid_draws w).
Proof.
  unfold chat, chat_body, last_item. run_monad.
  intros [[Hnil ->] | [Hne Hraise]].
  - rewrite Hnil. cbn. eexists. split; [reflexivity |]. cbn. split; [apply last_snoc | reflexivity].
  - destruct (last (messages request)) as [m |] eqn:Hlast;
      [| now apply last_None in Hlast].
    cbn. destruct (chat_engine_chat _ _ _ _) as [[answer | e'] x]; cbn in *; [discriminate |].
    injection Hraise as ->.
    eexists. split; [reflexivity |]. cbn. split; [apply last_snoc | reflexivity].
Qed.

(** C2.  With [stream=true], when the chat engine returns its answer for a
    non-empty message list, the handler returns an event stream of media
    type "text/event-stream" that yields, in order and one for one, the
    serialisation of each chunk the engine's iterable yields, taken after
    the chunk's identifier has been set to the UUID drawn for this request:
    every fragment of the response carries that one, freshly drawn
    identifier, and the draw is consumed by this request. *)
Theorem chat_stream_fragments_stamped
    (msgs : list MessageBase) (u : option string) (w : World Ext)
    (answer : StreamingChatResponse) (x : Ext) :
  msgs <> [] ->
  chat_engine_chat (chat_engine app) msgs true (ext w) = (Return answer, x) ->
  exists content_stream w',
    chat uuid4_at chunk_json app (mkChatRequest msgs true u) w
    = (Return (EventSourceResponse content_stream "text/event-stream"), w')
    /\ yielded content_stream
       = (fun c => chunk_json (mkChunk (uuid4_at (uuid_draws w)) (chunk_rest c)))
           <$> yielded (chunks answer)
    /\ Forall (stamped chunk_json (uuid4_at (uuid_draws w))) (yielded content_stream)
    /\ uuid_draws w' = S (uuid_draws w).
Proof.
  intros Hne Hchat. unfold chat, chat_body, last_item. run_monad. cbn [messages stream].
  destruct (last msgs) as [m |] eqn:Hlast; [| now apply last_None in Hlast].
  cbn. rewrite Hchat. cbn.
  eexists _, _. split; [reflexivity |]. unfold stringify_content.
  split; [apply yielded_stringify_chunks |].
  split; [apply stringify_chunks_stamped | reflexivity].
Qed.


(** C10.  The optional session identifier of a request is read and dropped:
    two requests that differ only in [user] make the handler do the same
    thing -- same call on the chat engine with the same arguments, same
    log records, same response, same final state -- and the chat engine is
    called, if at all, with the messages and the stream flag only. *)
Theorem chat_ignores_session_id
    (msgs : list MessageBase) (s : bool) (u1 u2 : option string) (w : World Ext) :
  chat uuid4_at chunk_json app (mkChatRequest msgs s u1) w
  = chat uuid4_at chunk_json app (mkChatRequest msgs s u2) w
  /\ trace (snd (chat uuid4_at chunk_json app (mkChatRequest msgs s u1) w))
     = (trace w ++ match last msgs with
                   | Some _ => [Call_chat msgs s]
                   | None => []
                   end)%list.
Proof.
  split; [reflexivity |].
  unfold chat, chat_body, last_item. run_monad. cbn [messages stream].
  destruct (last msgs) as [m |]; cbn; [| now rewrite app_nil_r].
  destruct (chat_engine_chat _ _ _ _) as [[answer | e] x]; cbn; [| reflexivity].
  destruct s; reflexivity.
Qed.

End ChatProperties.

Section DelegationProperties.

Context {Ext : Type}.
Variable app : App Ext.

(** C4.  The query handler makes one call on the context engine, with the
    request's queries and with [max_context_tokens] equal to the request's
    [max_tokens]; what it returns is the [content] of the context that call
    produced -- its token count and debug information are dropped -- and a
    raised exception becomes a 500 carrying its text. *)
Theorem query_delegates (request : ContextQueryRequest) (w : World Ext) :
  exists w',
    query app request w
    = (match fst (context_engine_query (context_engine app)
                    (queries request) (max_tokens request) (ext w)) with
       | Return context => Return (context_content context)
       | Raise e =>
           Raise (mkHTTPException 500 ("Internal Service Error: " +:+ exc_str e))
       end, w')
    /\ trace w' = (trace w ++ [Call_query (queries request) (max_tokens request)])%list
    /\ ext w' = snd (context_engine_query (context_engine app)
                       (queries request) (max_tokens request) (ext w)).
Proof.
  unfold query. run_monad.
  destruct (context_engine_query _ _ _ _) as [[context | e] x]; cbn;
    eexists; repeat split.
Qed.

(** C6.  The upsert handler makes one call on the knowledge base, with the
    request's document list as it is -- same documents, same order,
    duplicates kept -- and the request's batch size; when the call returns
    the handler returns the success acknowledgement, and when it raises the
    handler raises a 500 carrying the text. *)
Theorem upsert_delegates (request : ContextUpsertRequest) (w : World Ext) :
  exists w',
    upsert app request w
    = (match fst (kb_upsert (kb app) (documents request) (batch_size request) (ext w)) with
       | Return _ => Return mkSuccessUpsertResponse
       | Raise e =>
           Raise (mkHTTPException 500 ("Internal Service Error: " +:+ exc_str e))
       end, w')
    /\ trace w' = (trace w ++ [Call_upsert (documents request) (batch_size request)])%list
    /\ ext w' = snd (kb_upsert (kb app) (documents request) (batch_size request) (ext w)).
Proof.
  unfold upsert. run_monad.
  destruct (kb_upsert _ _ _ _) as [[[] | e] x]; cbn; eexists; repeat split.
Qed.

(** C7.  Whenever the knowledge base's [delete] returns for the identifiers
    of the request, the delete handler returns the success
    acknowledgement: the handler never looks at whether an identifier was
    stored, and produces no not-found error of its own. *)
Theorem delete_acknowledges
    (request : ContextDeleteRequest) (w : World Ext) (x : Ext) :
  kb_delete (kb app) (document_ids request) (ext w) = (Return tt, x) ->
  exists w',
    delete app request w = (Return mkSuccessDeleteResponse, w')
    /\ ext w' = x
    /\ trace w' = (trace w ++ [Call_delete (document_ids request)])%list.
Proof.
  intros H. unfold delete. run_monad. rewrite H. cbn.
  eexists; repeat split.
Qed.

(** C5.  The health check probes the index first.  If that probe raises,
    the result is a 500 whose detail is "Failed connecting to Pinecone
    Index " and the index name, then ". Error: " and the text of the
    error, and the LLM is not probed.  Otherwise the LLM is asked for a
    completion of one user message with [max_tokens=50]; if that raises,
    the result is a 500 whose detail is "Failed to communicate with " and
    the class name of the LLM client, then ". Error: " and the text.  If
    both probes return, the result is the record with both statuses "OK". *)
Theorem health_check_reports (w : World Ext) :
  let probe := UserMessage "This is a health check. Are you alive? Be concise" in
  match kb_verify_index_connection (kb app) (ext w) with
  | (Raise e, _) =>
      exists w',
        health_check app w
        = (Raise (mkHTTPException 500
                    ("Failed connecting to Pinecone Index " +:+ kb_index_name (kb app)
                     +:+ ". Error: " +:+ exc_str e)), w')
        /\ trace w' = (trace w ++ [Call_verify_index_connection])%list
  | (Return _, x) =>
      match llm_chat_completion (llm app) [probe] 50 x with
      | (Raise e, _) =>
          exists w',
            health_check app w
            = (Raise (mkHTTPException 500
                        ("Failed to communicate with " +:+ llm_class_name (llm app)
                         +:+ ". Error: " +:+ exc_str e)), w')
            /\ trace w' = (trace w ++ [Call_verify_index_connection;
                                       Call_chat_completion [probe] 50])%list
      | (Return _, _) =>
          exists w',
            health_check app w = (Return (mkHealthStatus "OK" "OK"), w')
            /\ trace w' = (trace w ++ [Call_verify_index_connection;
                                       Call_chat_completion [probe] 50])%list
      end
  end.
Proof.
  intros probe. unfold health_check. run_monad. fold probe.
  destruct (kb_verify_index_connection _ _) as [[[] | e] x]; cbn.
  - destruct (llm_chat_completion _ _ _ _) as [[r | e] x']; cbn;
      eexists; (split; [reflexivity |]); now rewrite <- app_assoc.
  - eexists; split; reflexivity.
Qed.

End DelegationProperties.

Section StartupProperties.

Context {Ext : Type}.
Variable environ : gmap string string.
Variable lib : Library Ext.

Lemma truthy_Some (s : string) : s <> EmptyString -> truthy (Some s) = true.
Proof.
  intros H. cbn. now apply negb_true_iff, String.eqb_neq.
Qed.


(** C8.  With INDEX_NAME unset or empty, [_init_engines] raises
    [ValueError("INDEX_NAME environment variable must be set")] at once: the
    world is left as it was, so no collaborator has been constructed and no
    global bound.  The process then never serves: for any list of requests,
    [run] ends with an exception, the globals untouched, and the set-up of
    logging as the only call made. *)
Theorem init_engines_requires_index_name
    (Hunset : getenv environ "INDEX_NAME" = None
              \/ getenv environ "INDEX_NAME" = Some EmptyString) :
  (forall w : World Ext,
      _init_engines environ lib w
      = (Raise (ValueError "INDEX_NAME environment variable must be set"), w))
  /\ (forall uuid4_at chunk_json (rs : list Request) (w : World Ext),
        exists e w',
          run uuid4_at chunk_json environ lib rs w = (Raise e, w')
          /\ globals w' = globals w
          /\ trace w' = (trace w ++ [Call_basicConfig (log_filename environ) (log_level environ)])%list).
Proof.
  assert (Hfalsy : truthy (getenv environ "INDEX_NAME") = false)
    by (destruct Hunset as [-> | ->]; reflexivity).
  split.
  - intros w. unfold _init_engines. rewrite Hfalsy. reflexivity.
  - intros uuid4_at chunk_json rs w.
    unfold run, startup, _init_logging, _init_engines. rewrite Hfalsy.
    run_monad. fold (log_filename environ) (log_level environ).
    destruct (logging_basicConfig _ _ _ _) as [[[] | e] x]; cbn;
      do 2 eexists; repeat split.
Qed.

(** C9 (amended).  Let INDEX_NAME be set, the logging set-up return, and
    CANOPY_CONFIG_FILE name a file that loads as a mapping without a
    "chat_engine" key and whose "tokenizer" section (empty when absent)
    the tokenizer accepts.  Then the process ends at startup with
    [ConfigError("Config file <file> must contain a 'chat_engine'
    section")]: no request is served, no global is bound, and the only
    calls made are the logging set-up, the load of the file and the
    initialisation of the tokenizer. *)
Theorem load_config_requires_chat_engine
    (uuid4_at : nat -> string) (chunk_json : StreamingChatChunk -> string)
    (rs : list Request) (w : World Ext)
    (index_name config_file : string) (entries : list (string * Yaml))
    (x1 x2 x3 : Ext) :
  getenv environ "INDEX_NAME" = Some index_name -> index_name <> EmptyString ->
  getenv environ "CANOPY_CONFIG_FILE" = Some config_file -> config_file <> EmptyString ->
  logging_basicConfig lib (log_filename environ) (log_level environ) (ext w) = (Return tt, x1) ->
  safe_load lib config_file x1 = (Return (YMap entries), x2) ->
  assoc "chat_engine" entries = None ->
  Tokenizer_initialize_from_config lib
    (from_option id (YMap []) (assoc "tokenizer" entries)) x2 = (Return tt, x3) ->
  exists w',
    run uuid4_at chunk_json environ lib rs w
    = (Raise (ConfigError ("Config file " +:+ config_file
                           +:+ " must contain a 'chat_engine' section")), w')
    /\ globals w' = globals w
    /\ trace w'
       = (trace w ++ [Call_basicConfig (log_filename environ) (log_level environ);
                      Call_safe_load config_file;
                      Call_Tokenizer_initialize_from_config
                        (from_option id (YMap []) (assoc "tokenizer" entries))])%list.
Proof.
  intros Hidx Hidx' Hcfg Hcfg' Hlog Hload Hmissing Htok.
  unfold run, startup, _init_logging, _init_engines, _load_config.
  rewrite Hidx, Hcfg, !truthy_Some by assumption.
  run_monad. fold (log_filename environ) (log_level environ).
  rewrite Hlog. cbn. rewrite Hload. cbn. rewrite Htok. cbn.
  rewrite Hmissing. cbn.
  eexists; repeat split. cbn. now rewrite <- !app_assoc.
Qed.

End StartupProperties.

(** * Concrete runs on the in-memory canopy *)


(** The chat engine is down and the caller asked for a stream: the
    engine's exception becomes the 500, logged under the question
    identifier. *)
Lemma chat_handler_exception_is_500_witness :
  let request := mkChatRequest [UserMessage "hello"] true None in
  let down := mkException "APIConnectionError" "Connection error." in
  (messages request <> []
   /\ fst (chat_engine_chat (chat_engine Memory.app_engine_down) (messages request)
             (stream request) (∅ : Memory.Store)) = Raise down)
  /\ exists w',
       chat Memory.uuid4_at Memory.chunk_json Memory.app_engine_down request
         (Memory.world ∅)
       = (Raise (mkHTTPException 500 "Internal Service Error: Connection error."), w')
       /\ last (log w')
          = Some (mkLogRecord ERROR "Chat with question_id uuid-0 failed" (Some down))
       /\ uuid_draws w' = 1%nat.
Proof.
  intros request down.
  assert (H : messages request <> []
              /\ fst (chat_engine_chat (chat_engine Memory.app_engine_down)
                        (messages request) (stream request) (∅ : Memory.Store))
                 = Raise down)
    by (split; [discriminate | reflexivity]).
  split; [exact H |].
  exact (chat_handler_exception_is_500 Memory.uuid4_at Memory.chunk_json
           Memory.app_engine_down request (Memory.world ∅) down (or_intror H)).
Defined.

(** An empty message list: [request.messages[-1]] raises IndexError before
    the engine is reached. *)
Example chat_without_messages :
  chat Memory.uuid4_at Memory.chunk_json Memory.app
    (mkChatRequest [] true None) (Memory.world ∅)
  = (Raise (mkHTTPException 500 "Internal Service Error: list index out of range"),
     mkWorld ∅ 1
       [mkLogRecord ERROR "Chat with question_id uuid-0 failed"
          (Some (mkException "IndexError" "list index out of range"))]
       [] unbound).
Proof. reflexivity. Qed.

(** Two chunks streamed under one identifier. *)
Lemma chat_stream_fragments_stamped_witness :
  exists content_stream w',
    chat Memory.uuid4_at Memory.chunk_json Memory.app
      (mkChatRequest [UserMessage "hello"] true None) (Memory.world ∅)
    = (Return (EventSourceResponse content_stream "text/event-stream"), w')
    /\ yielded content_stream
       = ["{'id': 'uuid-0', 'delta': 'Hel'}"; "{'id': 'uuid-0', 'delta': 'lo'}"]
    /\ Forall (stamped Memory.chunk_json "uuid-0") (yielded content_stream)
    /\ uuid_draws w' = 1%nat.
Proof.
  refine (chat_stream_fragments_stamped Memory.uuid4_at Memory.chunk_json Memory.app
            [UserMessage "hello"] None (Memory.world ∅)
            (mkStreamingChatResponse Memory.two_chunks) ∅ _ eq_refl).
  discriminate.
Defined.

(** A provider that drops the connection after the first chunk: the flow
    raises, yet the handler has returned an event stream, one fragment is
    delivered before the stream fails, and no 500 is produced. *)
Lemma chat_stream_failure_not_surfaced :
  let request := mkChatRequest [UserMessage "hello"] true None in
  let app := Memory.app_with Memory.broken_stream in
  let boom := mkException "APIError" "stream interrupted" in
  chat_flow_exception Memory.uuid4_at Memory.chunk_json app request (Memory.world ∅)
  = Some boom
  /\ fst (chat Memory.uuid4_at Memory.chunk_json app request (Memory.world ∅))
     = Return (EventSourceResponse
                 (Yield "{'id': 'uuid-0', 'delta': 'Hel'}" (IterRaise boom))
                 "text/event-stream")
  /\ ~ chat_surfaces_every_exception Memory.uuid4_at Memory.chunk_json app.
Proof.
  intros request app boom. split; [reflexivity |]. split; [reflexivity |].
  intros H. specialize (H request (Memory.world ∅) boom eq_refl).
  vm_compute in H. discriminate H.
Qed.


(** Two chat requests with a health check in between. *)
Example chat_twice :
  let ask := POST_chat (mkChatRequest [UserMessage "hello"] false (Some "alice")) in
  fst (serve Memory.uuid4_at Memory.chunk_json Memory.app [ask; GET_health; ask]
         (Memory.world ∅))
  = [ChatResult (Return (JSONChatResponse (mkChatResponse "uuid-0" "an answer")));
     HealthResult (Return (mkHealthStatus "OK" "OK"));
     ChatResult (Return (JSONChatResponse (mkChatResponse "uuid-1" "an answer")))].
Proof. vm_compute. reflexivity. Qed.

(** Deleting an identifier the index never held. *)
Lemma delete_acknowledges_witness :
  kb_delete (kb Memory.app) ["missing-id"] (∅ : Memory.Store) = (Return tt, ∅)
  /\ exists w',
       delete Memory.app (mkContextDeleteRequest ["missing-id"]) (Memory.world ∅)
       = (Return mkSuccessDeleteResponse, w')
       /\ ext w' = ∅
       /\ trace w' = [Call_delete ["missing-id"]].
Proof.
  split; [reflexivity |].
  apply (delete_acknowledges Memory.app (mkContextDeleteRequest ["missing-id"])
           (Memory.world ∅) ∅).
  reflexivity.
Defined.

(** The same two documents twice in one batch reach the knowledge base as
    they are; which one is kept is the knowledge base's business. *)
Example upsert_duplicates :
  let docs := [mkDocument "a" "first" []; mkDocument "a" "second" []] in
  let '(r, w) := upsert Memory.app (mkContextUpsertRequest docs 10) (Memory.world ∅) in
  r = Return mkSuccessUpsertResponse
  /\ trace w = [Call_upsert docs 10]
  /\ ext w !! "a" = Some "second".
Proof. vm_compute. repeat split. Qed.

Example health_llm_down :
  let app := mkApp (kb Memory.app) (context_engine Memory.app) (chat_engine Memory.app)
               Memory.mem_llm_down in
  fst (health_check app (Memory.world ∅))
  = Raise (mkHTTPException 500
             "Failed to communicate with OpenAILLM. Error: Connection error.").
Proof. reflexivity. Qed.

(** No INDEX_NAME in the environment. *)
Lemma init_engines_requires_index_name_witness :
  (getenv ∅ "INDEX_NAME" = None \/ getenv ∅ "INDEX_NAME" = Some EmptyString)
  /\ _init_engines ∅ (Memory.library (Return YNull) (Return tt)) (Memory.world ∅)
     = (Raise (ValueError "INDEX_NAME environment variable must be set"), Memory.world ∅).
Proof.
  split; [left; reflexivity |].
  refine (proj1 (init_engines_requires_index_name ∅
                   (Memory.library (Return YNull) (Return tt)) _) _).
  left; reflexivity.
Defined.

(** A configuration file with a tokenizer section and nothing else. *)
Lemma load_config_requires_chat_engine_witness :
  getenv Memory.environ "INDEX_NAME" = Some "canopy--test"
  /\ getenv Memory.environ "CANOPY_CONFIG_FILE" = Some "canopy.yaml"
  /\ exists w',
       run Memory.uuid4_at Memory.chunk_json Memory.environ
         (Memory.library (Return Memory.tokenizer_only) (Return tt))
         [GET_health] (Memory.world ∅)
       = (Raise (ConfigError "Config file canopy.yaml must contain a 'chat_engine' section"),
          w')
       /\ globals w' = unbound
       /\ trace w'
          = [Call_basicConfig "canopy.log" "INFO"; Call_safe_load "canopy.yaml";
             Call_Tokenizer_initialize_from_config
               (YMap [("type", YStr "OpenAITokenizer")])].
Proof.
  split; [reflexivity |]. split; [reflexivity |].
  apply (load_config_requires_chat_engine Memory.environ
           (Memory.library (Return Memory.tokenizer_only) (Return tt))
           Memory.uuid4_at Memory.chunk_json [GET_health] (Memory.world ∅)
           "canopy--test" "canopy.yaml"
           [("tokenizer", YMap [("type", YStr "OpenAITokenizer")])] ∅ ∅ ∅);
    (reflexivity || discriminate).
Defined.

(** The same file with a tokenizer section the tokenizer rejects: startup
    ends with the tokenizer's exception, raised before the "chat_engine"
    check is reached. *)
Lemma load_config_tokenizer_error_first :
  let lib := Memory.library (Return Memory.tokenizer_only) Memory.tokenizer_rejects in
  fst (run Memory.uuid4_at Memory.chunk_json Memory.environ lib [] (Memory.world ∅))
  = Raise (mkException "ValueError" "Unknown tokenizer type")
  /\ ~ missing_chat_engine_is_ConfigError Memory.uuid4_at Memory.chunk_json
         Memory.environ lib.
Proof.
  intros lib. split; [reflexivity |].
  intros H.
  destruct (H [] (Memory.world ∅) "canopy.yaml" eq_refl eq_refl) as (m & w' & Hrun).
  - intros x. exists Memory.tokenizer_only, x. split; reflexivity.
  - vm_compute in Hrun. discriminate Hrun.
Qed.

(** An empty file: [yaml.safe_load] returns [None], and [config.get] is the
    first statement to fail. *)
Example load_config_empty_document :
  fst (run Memory.uuid4_at Memory.chunk_json Memory.environ
         (Memory.library (Return YNull) (Return tt)) [] (Memory.world ∅))
  = Raise (mkException "AttributeError" "'NoneType' object has no attribute 'get'").
Proof. reflexivity. Qed.

(** * Further properties of the handlers *)

Lemma append_assoc (a b c : string) : (a +:+ b) +:+ c = a +:+ (b +:+ c).
Proof.
  induction a as [| ch a IH]; [reflexivity |].
  change (String ch ((a +:+ b) +:+ c) = String ch (a +:+ (b +:+ c))).
  now f_equal.
Qed.

Section RouteProperties.

Local Open Scope nat_scope.

Context {Ext : Type}.
Variable uuid4_at : nat -> string.
Variable chunk_json : StreamingChatChunk -> string.
Variable app : App Ext.

(** X1.  Whatever route fails, the caller gets the failure as a 500.  If
    a collaborator raises when called as the route calls it (or the chat
    request has no message to read), the response is an [HTTPException]
    with status 500 whose detail is the route's prefix followed by the
    text of that very exception, and the last record handed to the logger
    is an ERROR record carrying it.  If none raises, the response is not
    an error. *)
Theorem route_error_is_logged_500 (r : Request) (w : World Ext) :
  match route_failure app r (ext w) with
  | Some e =>
      response_error (fst (route uuid4_at chunk_json app r w))
      = Some (mkHTTPException 500 (error_prefix app r (ext w) +:+ exc_str e))
      /\ exists m : string,
           last (log (snd (route uuid4_at chunk_json app r w)))
           = Some (mkLogRecord ERROR m (Some e))
  | None => response_error (fst (route uuid4_at chunk_json app r w)) = None
  end.
Proof.
  destruct r as [request | request | request | request |];
    cbn [route route_failure error_prefix].
  - unfold chat, chat_body, last_item. run_monad.
    destruct (messages request) as [| m0 ms] eqn:Hmsgs.
    + cbn. split; [reflexivity |]. eexists. apply last_snoc.
    + destruct (last (m0 :: ms)) as [m |] eqn:Hlast;
        [| now apply last_None in Hlast].
      cbn. destruct (chat_engine_chat _ _ _ _) as [[answer | e] x]; cbn.
      * now destruct (stream request).
      * split; [reflexivity |]. eexists. apply last_snoc.
  - unfold query. run_monad.
    destruct (context_engine_query _ _ _ _) as [[ctx | e] x]; cbn; [reflexivity |].
    split; [reflexivity |]. eexists. apply last_snoc.
  - unfold upsert. run_monad.
    destruct (kb_upsert _ _ _ _) as [[[] | e] x]; cbn; [reflexivity |].
    split; [reflexivity |]. eexists. apply last_snoc.
  - unfold delete. run_monad.
    destruct (kb_delete _ _ _) as [[[] | e] x]; cbn; [reflexivity |].
    split; [reflexivity |]. eexists. apply last_snoc.
  - unfold health_check. run_monad.
    destruct (kb_verify_index_connection _ _) as [[[] | e] x]; cbn.
    + destruct (llm_chat_completion _ _ _ _) as [[c | e] x']; cbn; [reflexivity |].
      split; [| eexists; apply last_snoc].
      do 2 f_equal. now rewrite !append_assoc.
    + split; [| eexists; apply last_snoc].
      do 2 f_equal. now rewrite !append_assoc.
Qed.

(** One request leaves the globals alone, only appends to the log, and
    makes an initial segment of the calls listed for its route. *)
Lemma route_frame (r : Request) (w : World Ext) :
  globals (snd (route uuid4_at chunk_json app r w)) = globals w
  /\ log w `prefix_of` log (snd (route uuid4_at chunk_json app r w))
  /\ exists calls,
       trace (snd (route uuid4_at chunk_json app r w)) = (trace w ++ calls)%list
       /\ calls `prefix_of` route_calls r.
Proof.
  destruct r as [request | request | request | request |]; cbn [route route_calls].
  - unfold chat, chat_body. run_monad.
    destruct (last_item (messages request)) as [m | e]; cbn.
    + destruct (chat_engine_chat _ _ _ _) as [[answer | e] x]; cbn.
      * destruct request as [msgs [] u]; cbn;
          (split; [reflexivity |]); (split; [eexists; reflexivity |]);
          eexists; split; reflexivity.
      * split; [reflexivity |]. split; [rewrite <- app_assoc; eexists; reflexivity |].
        eexists; split; reflexivity.
    + split; [reflexivity |]. split; [eexists; reflexivity |].
      exists []. split; [now rewrite app_nil_r | apply prefix_nil].
  - unfold query. run_monad.
    destruct (context_engine_query _ _ _ _) as [[ctx | e] x]; cbn;
      (split; [reflexivity |]);
      (split; [first [apply prefix_app_r; reflexivity | reflexivity] |]);
      eexists; split; reflexivity.
  - unfold upsert. run_monad.
    destruct (kb_upsert _ _ _ _) as [[[] | e] x]; cbn;
      (split; [reflexivity |]);
      (split; [first [rewrite <- app_assoc; eexists; reflexivity | eexists; reflexivity] |]);
      eexists; split; reflexivity.
  - unfold delete. run_monad.
    destruct (kb_delete _ _ _) as [[[] | e] x]; cbn;
      (split; [reflexivity |]);
      (split; [first [rewrite <- app_assoc; eexists; reflexivity | eexists; reflexivity] |]);
      eexists; split; reflexivity.
  - unfold health_check. run_monad.
    destruct (kb_verify_index_connection _ _) as [[[] | e] x]; cbn.
    + destruct (llm_chat_completion _ _ _ _) as [[c | e] x']; cbn;
        (split; [reflexivity |]);
        (split; [first [reflexivity | eexists; reflexivity] |]);
        eexists; (split; [now rewrite <- app_assoc | reflexivity]).
    + split; [reflexivity |]. split; [eexists; reflexivity |].
      eexists; split; [reflexivity |]. now apply prefix_cons, prefix_nil.
Qed.

End RouteProperties.

Section ServeProperties.

Local Open Scope nat_scope.

Context {Ext : Type}.
Variable uuid4_at : nat -> string.
Variable chunk_json : StreamingChatChunk -> string.
Variable app : App Ext.

Lemma serve_frame (rs : list Request) (w : World Ext) :
  globals (snd (serve uuid4_at chunk_json app rs w)) = globals w
  /\ log w `prefix_of` log (snd (serve uuid4_at chunk_json app rs w)).
Proof.
  revert w. induction rs as [| r rest IH]; intros w; cbn [serve].
  - split; reflexivity.
  - destruct (route_frame uuid4_at chunk_json app r w) as (Hg & Hl & _).
    destruct (route uuid4_at chunk_json app r w) as [o w1]. cbn [snd] in *.
    destruct (IH w1) as [Hg' Hl'].
    destruct (serve uuid4_at chunk_json app rest w1) as [os w2]. cbn [snd] in *.
    split; [congruence | etrans; eassumption].
Qed.

(** X2.  Serving requests never rebinds a global and never drops or
    rewrites a log record: after any list of requests the four handles are
    the ones startup bound, and the earlier log is an initial segment of
    the later one. *)
Theorem serve_keeps_globals_and_log (rs : list Request) (w : World Ext) :
  globals (snd (serve uuid4_at chunk_json app rs w)) = globals w
  /\ log w `prefix_of` log (snd (serve uuid4_at chunk_json app rs w)).
Proof.
  destruct (serve_frame rs w) as [Hg Hl]. split; [exact Hg | exact Hl].
Qed.

(** X3.  No retry and no stray call: the collaborator calls one request
    makes are an initial segment of the calls of its route -- one call
    with the request's own arguments for chat, query, upsert and delete;
    the index probe and then the LLM probe for the health check -- and
    they are all of them when no collaborator raises and, for chat, there
    is a message to read. *)
Theorem route_makes_no_stray_call (r : Request) (w : World Ext) :
  exists calls : list Call,
    trace (snd (route uuid4_at chunk_json app r w)) = (trace w ++ calls)%list
    /\ calls `prefix_of` route_calls r
    /\ (route_failure app r (ext w) = None -> calls = route_calls r).
Proof.
  destruct r as [request | request | request | request |];
    cbn [route route_calls route_failure].
  - unfold chat, chat_body, last_item. run_monad.
    destruct (messages request) as [| m0 ms] eqn:Hmsgs.
    + cbn. exists []. split; [now rewrite app_nil_r |].
      split; [apply prefix_nil | discriminate].
    + destruct (last (m0 :: ms)) as [m |] eqn:Hlast;
        [| now apply last_None in Hlast].
      cbn. destruct (chat_engine_chat _ _ _ _) as [[answer | e] x]; cbn.
      * destruct (stream request); cbn; eexists; repeat split; reflexivity.
      * eexists; repeat split; reflexivity.
  - unfold query. run_monad.
    destruct (context_engine_query _ _ _ _) as [[ctx | e] x]; cbn;
      eexists; repeat split; reflexivity.
  - unfold upsert. run_monad.
    destruct (kb_upsert _ _ _ _) as [[[] | e] x]; cbn;
      eexists; repeat split; reflexivity.
  - unfold delete. run_monad.
    destruct (kb_delete _ _ _) as [[[] | e] x]; cbn;
      eexists; repeat split; reflexivity.
  - unfold health_check. run_monad.
    destruct (kb_verify_index_connection _ _) as [[[] | e] x]; cbn.
    + destruct (llm_chat_completion _ _ _ _) as [[c | e] x']; cbn;
        eexists; (split; [now rewrite <- app_assoc |]); split; reflexivity.
    + exists [Call_verify_index_connection]. split; [reflexivity |].
      split; [now apply prefix_cons, prefix_nil | discriminate].
Qed.

(** X4.  A chat request without messages never reaches the chat engine:
    [request.messages[-1]] raises IndexError, the handler answers 500
    "Internal Service Error: list index out of range", and the request has
    still consumed a UUID and left one ERROR record in the log. *)
Theorem chat_empty_messages (s : bool) (u : option string) (w : World Ext) :
  chat uuid4_at chunk_json app (mkChatRequest [] s u) w
  = (Raise (mkHTTPException 500 "Internal Service Error: list index out of range"),
     mkWorld (ext w) (S (uuid_draws w))
       (log w ++ [mkLogRecord ERROR
                    ("Chat with question_id " +:+ uuid4_at (uuid_draws w) +:+ " failed")
                    (Some (mkException "IndexError" "list index out of range"))])
       (trace w) (globals w)).
Proof. reflexivity. Qed.

(** X5.  A streamed answer is relayed chunk for chunk: the event stream
    yields, in order, the serialisation of every chunk the chat engine's
    iterable yields, with the identifier replaced and the rest of the
    chunk kept, and it ends the way the iterable ends -- exhausted, or
    with the very exception the iterable raised. *)
Theorem chat_stream_relays_chunks
    (msgs : list MessageBase) (u : option string) (w : World Ext)
    (answer : StreamingChatResponse) (x : Ext) :
  msgs <> [] ->
  chat_engine_chat (chat_engine app) msgs true (ext w) = (Return answer, x) ->
  exists content_stream w',
    chat uuid4_at chunk_json app (mkChatRequest msgs true u) w
    = (Return (EventSourceResponse content_stream "text/event-stream"), w')
    /\ yielded content_stream
       = (fun c => chunk_json (mkChunk (uuid4_at (uuid_draws w)) (chunk_rest c)))
           <$> yielded (chunks answer)
    /\ iter_failure content_stream = iter_failure (chunks answer)
    /\ ext w' = x.
Proof.
  intros Hne Hchat. unfold chat, chat_body, last_item. run_monad. cbn [messages stream].
  destruct (last msgs) as [m |] eqn:Hlast; [| now apply last_None in Hlast].
  cbn. rewrite Hchat. cbn.
  eexists _, _. split; [reflexivity |].
  unfold stringify_content.
  split; [apply yielded_stringify_chunks |].
  split; [apply iter_failure_stringify_chunks | reflexivity].
Qed.

(** X6.  A single answer is returned as the chat engine gave it except for
    its identifier, which the handler overwrites; before the call the
    handler logs, at DEBUG level, the content of the last message. *)
Theorem chat_json_keeps_answer
    (msgs : list MessageBase) (u : option string) (w : World Ext)
    (m : MessageBase) (answer : ChatResponse) (x : Ext) :
  last msgs = Some m ->
  chat_engine_chat (chat_engine app) msgs false (ext w) = (Return answer, x) ->
  chat uuid4_at chunk_json app (mkChatRequest msgs false u) w
  = (Return (JSONChatResponse
               (mkChatResponse (uuid4_at (uuid_draws w)) (response_rest answer))),
     mkWorld x (S (uuid_draws w))
       (log w ++ [mkLogRecord DEBUG ("Received chat request: " +:+ content m) None])
       (trace w ++ [Call_chat msgs false]) (globals w)).
Proof.
  intros Hlast Hchat. unfold chat, chat_body, last_item. run_monad. cbn [messages stream].
  rewrite Hlast. cbn. rewrite Hchat. reflexivity.
Qed.

(** X7.  Only the chat route consumes UUIDs, and it consumes exactly one
    per request, whether the request succeeds, fails or streams. *)
Theorem route_uuid_draws (r : Request) (w : World Ext) :
  uuid_draws (snd (route uuid4_at chunk_json app r w))
  = match r with
    | POST_chat _ => S (uuid_draws w)
    | _ => uuid_draws w
    end.
Proof.
  destruct r as [request | request | request | request |]; cbn [route].
  - pose proof (chat_draws uuid4_at chunk_json app request w) as H.
    now destruct (chat uuid4_at chunk_json app request w).
  - unfold query. run_monad.
    now destruct (context_engine_query _ _ _ _) as [[ctx | e] x].
  - unfold upsert. run_monad.
    now destruct (kb_upsert _ _ _ _) as [[[] | e] x].
  - unfold delete. run_monad.
    now destruct (kb_delete _ _ _) as [[[] | e] x].
  - unfold health_check. run_monad.
    destruct (kb_verify_index_connection _ _) as [[[] | e] x]; cbn; [| reflexivity].
    now destruct (llm_chat_completion _ _ _ _) as [[c | e] x'].
Qed.

End ServeProperties.

(** * Further properties of startup *)

Section StartupExtras.

Local Open Scope nat_scope.

Context {Ext : Type}.
Variable environ : gmap string string.
Variable lib : Library Ext.

Ltac run_startup :=
  unfold _init_engines, _load_config, global_kb, assign_kb, assign_context_engine,
    assign_chat_engine, assign_llm in *;
  run_monad.




(** X10.  Without a configuration file -- CANOPY_CONFIG_FILE unset or
    empty -- a startup that returns has built the defaults in this order
    and nothing else: tokenizer, knowledge base on the index INDEX_NAME
    names, context engine, LLM, chat engine, then the connection of the
    knowledge base; no file is read. *)
Theorem default_engines_construction (w w' : World Ext) (index_name : string) :
  getenv environ "INDEX_NAME" = Some index_name ->
  truthy (getenv environ "CANOPY_CONFIG_FILE") = false ->
  _init_engines environ lib w = (Return tt, w') ->
  trace w'
  = (trace w ++ [Call_Tokenizer_initialize; Call_KnowledgeBase index_name;
                 Call_ContextEngine; Call_OpenAILLM; Call_ChatEngine; Call_connect])%list
  /\ is_Some (bound (globals w')).
Proof.
  intros Hidx Hcfg. run_startup. rewrite Hcfg, Hidx. cbn [default].
  destruct (truthy (Some index_name)); cbn; [| discriminate].
  destruct (Tokenizer_initialize _ _) as [[[] | e] x1]; cbn; [| discriminate].
  destruct (KnowledgeBase_new _ _ _) as [[k | e] x2]; cbn; [| discriminate].
  destruct (ContextEngine_new _ _ _) as [[c | e] x3]; cbn; [| discriminate].
  destruct (OpenAILLM_new _ _) as [[l | e] x4]; cbn; [| discriminate].
  destruct (ChatEngine_new _ _ _ _) as [[ce | e] x5]; cbn; [| discriminate].
  destruct (kb_connect _ _) as [[[] | e] x6]; cbn; [| discriminate].
  intros [= <-]. cbn. split; [| eauto].
  now rewrite <- !app_assoc.
Qed.

(** X11.  A configuration file that cannot be opened or parsed ends
    startup with [ConfigError("Failed to load config file <file>. Error:
    <text>")]: the failure is logged, the tokenizer is not initialised,
    nothing is constructed and no global is bound. *)
Theorem load_config_unreadable_file
    (w : World Ext) (index_name config_file : string) (e : Exception) (x : Ext) :
  getenv environ "INDEX_NAME" = Some index_name -> index_name <> EmptyString ->
  getenv environ "CANOPY_CONFIG_FILE" = Some config_file -> config_file <> EmptyString ->
  safe_load lib config_file (ext w) = (Raise e, x) ->
  _init_engines environ lib w
  = (Raise (ConfigError ("Failed to load config file " +:+ config_file
                         +:+ ". Error: " +:+ exc_str e)),
     mkWorld x (uuid_draws w)
       (log w ++ [mkLogRecord INFO ("Initializing engines with config file " +:+ config_file) None;
                  mkLogRecord ERROR ("Failed to load config file " +:+ config_file) (Some e)])
       (trace w ++ [Call_safe_load config_file]) (globals w)).
Proof.
  intros Hidx Hidx' Hcfg Hcfg' Hload. run_startup.
  rewrite Hidx, Hcfg, !truthy_Some by assumption. cbn.
  rewrite Hload. cbn. now rewrite <- app_assoc.
Qed.

(** X12.  When the chat engine cannot be built from the "chat_engine"
    section, startup ends with [ConfigError("Failed to initialize chat
    engine from config file <file>. Error: <text>")]; the failure is
    logged, no global is bound and the knowledge base is never
    connected. *)
Theorem load_config_bad_chat_engine
    (w : World Ext) (index_name config_file : string)
    (entries : list (string * Yaml)) (cfg : Yaml) (e : Exception) (x1 x2 x3 : Ext) :
  getenv environ "INDEX_NAME" = Some index_name -> index_name <> EmptyString ->
  getenv environ "CANOPY_CONFIG_FILE" = Some config_file -> config_file <> EmptyString ->
  safe_load lib config_file (ext w) = (Return (YMap entries), x1) ->
  assoc "chat_engine" entries = Some cfg ->
  Tokenizer_initialize_from_config lib
    (from_option id (YMap []) (assoc "tokenizer" entries)) x1 = (Return tt, x2) ->
  ChatEngine_from_config lib cfg x2 = (Raise e, x3) ->
  exists w',
    _init_engines environ lib w
    = (Raise (ConfigError ("Failed to initialize chat engine from config file "
                           +:+ config_file +:+ ". Error: " +:+ exc_str e)), w')
    /\ globals w' = globals w
    /\ last (log w')
       = Some (mkLogRecord ERROR
                 ("Failed to initialize chat engine from config file " +:+ config_file)
                 (Some e))
    /\ last (trace w') = Some (Call_ChatEngine_from_config cfg).
Proof.
  intros Hidx Hidx' Hcfg Hcfg' Hload Hce Htok Hfrom. run_startup.
  rewrite Hidx, Hcfg, !truthy_Some by assumption. cbn.
  rewrite Hload. cbn. rewrite Htok. cbn. rewrite Hce. cbn. rewrite Hfrom. cbn.
  eexists. split; [reflexivity |]. cbn.
  split; [reflexivity |]. split; apply last_snoc.
Qed.

(** X13.  A failure of [kb.connect()] is not translated: after a chat
    engine has been built from the file, the exception the connection
    raises leaves startup as it is, not as a ConfigError, although the
    four globals are already bound. *)
Theorem connect_failure_propagates
    (w : World Ext) (index_name config_file : string)
    (entries : list (string * Yaml)) (cfg : Yaml) (ce : ChatEngine Ext)
    (e : Exception) (x1 x2 x3 x4 : Ext) :
  getenv environ "INDEX_NAME" = Some index_name -> index_name <> EmptyString ->
  getenv environ "CANOPY_CONFIG_FILE" = Some config_file -> config_file <> EmptyString ->
  safe_load lib config_file (ext w) = (Return (YMap entries), x1) ->
  assoc "chat_engine" entries = Some cfg ->
  Tokenizer_initialize_from_config lib
    (from_option id (YMap []) (assoc "tokenizer" entries)) x1 = (Return tt, x2) ->
  ChatEngine_from_config lib cfg x2 = (Return ce, x3) ->
  kb_connect (context_engine_knowledge_base (chat_engine_context_engine ce)) x3
  = (Raise e, x4) ->
  exists w',
    _init_engines environ lib w = (Raise e, w')
    /\ is_Some (bound (globals w'))
    /\ last (trace w') = Some Call_connect.
Proof.
  intros Hidx Hidx' Hcfg Hcfg' Hload Hce Htok Hfrom Hconn. run_startup.
  rewrite Hidx, Hcfg, !truthy_Some by assumption. cbn.
  rewrite Hload. cbn. rewrite Htok. cbn. rewrite Hce. cbn. rewrite Hfrom. cbn.
  rewrite Hconn. cbn.
  eexists. split; [reflexivity |]. cbn. split; [eauto | apply last_snoc].
Qed.

(** X14.  With a configuration file named in the environment, startup
    cannot succeed unless the loaded document has a "chat_engine" entry:
    if the file, whenever it loads, has none -- whatever else it holds,
    mapping or not -- [_init_engines] raises and binds no global. *)
Theorem init_engines_fails_without_chat_engine
    (config_file : string) (w : World Ext) :
  getenv environ "CANOPY_CONFIG_FILE" = Some config_file ->
  config_file <> EmptyString ->
  (forall x config x',
      safe_load lib config_file x = (Return config, x') ->
      yaml_contains config "chat_engine" = false) ->
  exists e w',
    _init_engines environ lib w = (Raise e, w')
    /\ globals w' = globals w.
Proof.
  intros Hcfg Hcfg' Hdoc. run_startup.
  rewrite Hcfg, (truthy_Some config_file) by assumption.
  destruct (truthy (getenv environ "INDEX_NAME")); cbn; [| eauto].
  destruct (safe_load lib config_file (ext w)) as [[config | e] x1] eqn:Hload; cbn; [| eauto].
  apply Hdoc in Hload.
  destruct (yaml_get config "tokenizer" _) as [tok | e]; cbn; [| eauto].
  destruct (Tokenizer_initialize_from_config _ _ _) as [[[] | e] x2]; cbn; [| eauto].
  rewrite Hload. cbn. eauto.
Qed.

End StartupExtras.

(** * The entry point and the shutdown route *)

Section EntryPointProperties.

Context {Ext : Type}.
Variable environ : gmap string string.
Variable lib : Library Ext.

(** X15.  [start(config_file=f)] with a non-empty [f] makes [f] the
    configuration file whatever CANOPY_CONFIG_FILE held before, and
    changes no other variable: with INDEX_NAME set, the first thing
    [_init_engines] then does to the outside world is to load [f].
    Without the argument, or with an empty one, the environment is left
    as it was. *)
Theorem start_config_file_overrides
    (f index_name : string) (w : World Ext) :
  f <> EmptyString ->
  getenv environ "INDEX_NAME" = Some index_name -> index_name <> EmptyString ->
  getenv (start_environ environ (Some f)) "CANOPY_CONFIG_FILE" = Some f
  /\ (forall key, key <> "CANOPY_CONFIG_FILE" ->
        getenv (start_environ environ (Some f)) key = getenv environ key)
  /\ (exists rest,
        trace (snd (_init_engines (start_environ environ (Some f)) lib w))
        = (trace w ++ Call_safe_load f :: rest)%list)
  /\ start_environ environ None = environ
  /\ start_environ environ (Some EmptyString) = environ.
Proof.
  intros Hf Hidx Hidx'.
  assert (Henv : start_environ environ (Some f) = <["CANOPY_CONFIG_FILE" := f]> environ).
  { unfold start_environ. now rewrite truthy_Some. }
  split; [rewrite Henv; apply lookup_insert_eq |].
  split; [intros key Hkey; rewrite Henv; now apply lookup_insert_ne |].
  split; [| split; reflexivity].
  unfold _init_engines, _load_config, global_kb, assign_kb, assign_context_engine,
    assign_chat_engine, assign_llm.
  rewrite Henv. unfold getenv. rewrite lookup_insert_eq, lookup_insert_ne by done.
  unfold getenv in Hidx. rewrite Hidx, !truthy_Some by assumption.
  run_monad. cbn.
  destruct (safe_load _ _ _) as [[config | e] x1]; cbn; [| eexists; reflexivity].
  destruct (yaml_get config "tokenizer" _) as [tok | e]; cbn; [| eexists; reflexivity].
  destruct (Tokenizer_initialize_from_config _ _ _) as [[[] | e] x2]; cbn;
    [| rewrite <- app_assoc; eexists; reflexivity].
  destruct (yaml_contains config "chat_engine"); cbn;
    [| rewrite <- app_assoc; eexists; reflexivity].
  destruct (yaml_get config "chat_engine" _) as [cfg | e]; cbn;
    [| rewrite <- app_assoc; eexists; reflexivity].
  destruct (ChatEngine_from_config _ _ _) as [[ce | e] x3]; cbn;
    [| rewrite <- !app_assoc; eexists; reflexivity].
  destruct (kb_connect _ _) as [[[] | e] x4]; cbn;
    rewrite <- !app_assoc; eexists; reflexivity.
Qed.

End EntryPointProperties.

Lemma prefix_spec (n h : string) :
  String.prefix n h = true <-> exists post, h = n +:+ post.
Proof.
  revert h. induction n as [| a n IH]; intros h; cbn.
  - destruct h; (split; [intros _; eexists; reflexivity | reflexivity]).
  - destruct h as [| b h]; cbn.
    + split; [discriminate | intros [post H]; discriminate].
    + destruct (Ascii.ascii_dec a b) as [-> | Hne].
      * rewrite IH. split; intros [post H]; exists post.
        -- now rewrite H.
        -- now injection H.
      * split; [discriminate |]. intros [post H]. injection H as H1 H2. congruence.
Qed.

(** [contains] is Python's substring test. *)
Lemma contains_spec (n h : string) :
  contains n h = true <-> exists pre post, h = pre +:+ n +:+ post.
Proof.
  split.
  - induction h as [| c h IH]; cbn [contains]; rewrite orb_true_iff.
    + intros [H | H]; [| discriminate].
      apply prefix_spec in H as [post H]. now exists EmptyString, post.
    + intros [H | H].
      * apply prefix_spec in H as [post H]. now exists EmptyString, post.
      * destruct (IH H) as (pre & post & ->). now exists (String c pre), post.
  - intros (pre & post & ->). induction pre as [| c pre IH].
    + assert (H : String.prefix n (n +:+ post) = true) by (apply prefix_spec; eauto).
      change (EmptyString +:+ n +:+ post) with (n +:+ post).
      destruct (n +:+ post); cbn [contains]; now rewrite H.
    + change (String c pre +:+ n +:+ post) with (String c (pre +:+ n +:+ post)).
      cbn [contains]. rewrite IH. apply orb_true_r.
Qed.

Section ShutdownProperties.

Context {Ext : Type}.
Variable os_kill : option Z -> Signal -> Method (Ext:=Ext) unit.

(** X16.  In a process whose name contains "SpawnProcess" anywhere, the
    shutdown route interrupts the parent, not the process itself: it logs
    "Shutting down", sends SIGINT to [_parent_pid], acknowledges when the
    signal was delivered, and lets the exception of [os.kill] through
    unchanged when it was not. *)
Theorem shutdown_interrupts_parent_of_worker
    (proc : CurrentProcess) (pre post : string) (w : World Ext) :
  proc_name proc = pre +:+ "SpawnProcess" +:+ post ->
  shutdown proc os_kill w
  = (match fst (os_kill (proc_parent_pid proc) SIGINT (ext w)) with
     | Return _ => Return mkShutdownResponse
     | Raise e => Raise e
     end,
     mkWorld (snd (os_kill (proc_parent_pid proc) SIGINT (ext w))) (uuid_draws w)
       (log w ++ [mkLogRecord INFO "Shutting down" None]) (trace w) (globals w)).
Proof.
  intros Hname.
  assert (Hc : contains "SpawnProcess" (proc_name proc) = true)
    by (apply contains_spec; eauto).
  unfold shutdown, shutdown_pid, perform. rewrite Hc. run_monad.
  now destruct (os_kill _ _ _) as [[[] | e] x].
Qed.

(** X17.  In any other process the shutdown route interrupts the process
    itself. *)
Theorem shutdown_interrupts_itself
    (proc : CurrentProcess) (w : World Ext) :
  (forall pre post, proc_name proc <> pre +:+ "SpawnProcess" +:+ post) ->
  shutdown proc os_kill w
  = (match fst (os_kill (Some (proc_pid proc)) SIGINT (ext w)) with
     | Return _ => Return mkShutdownResponse
     | Raise e => Raise e
     end,
     mkWorld (snd (os_kill (Some (proc_pid proc)) SIGINT (ext w))) (uuid_draws w)
       (log w ++ [mkLogRecord INFO "Shutting down" None]) (trace w) (globals w)).
Proof.
  intros Hname.
  assert (Hc : contains "SpawnProcess" (proc_name proc) = false).
  { apply not_true_is_false. intros H. apply contains_spec in H as (pre & post & H).
    exact (Hname pre post H). }
  unfold shutdown, shutdown_pid, perform. rewrite Hc. run_monad.
  now destruct (os_kill _ _ _) as [[[] | e] x].
Qed.

End ShutdownProperties.

(** * Further concrete runs *)

(** A delete whose knowledge base times out. *)
Example delete_timeout :
  let app := mkApp (mkKnowledgeBase "canopy--test" (fun s => (Return tt, s))
                      (fun _ _ s => (Return tt, s))
                      (fun _ s => (Raise (mkException "PineconeError" "timeout"), s))
                      (fun s => (Return tt, s)))
               (context_engine Memory.app) (chat_engine Memory.app) (llm Memory.app) in
  fst (delete app (mkContextDeleteRequest ["a"]) (Memory.world ∅))
  = Raise (mkHTTPException 500 "Internal Service Error: timeout").
Proof. reflexivity. Qed.

Lemma chat_stream_relays_chunks_witness :
  let app := Memory.app_with Memory.broken_stream in
  exists content_stream w',
    chat Memory.uuid4_at Memory.chunk_json app
      (mkChatRequest [UserMessage "hello"] true None) (Memory.world ∅)
    = (Return (EventSourceResponse content_stream "text/event-stream"), w')
    /\ yielded content_stream = ["{'id': 'uuid-0', 'delta': 'Hel'}"]
    /\ iter_failure content_stream = Some (mkException "APIError" "stream interrupted")
    /\ ext w' = ∅.
Proof.
  intros app.
  refine (chat_stream_relays_chunks Memory.uuid4_at Memory.chunk_json app
            [UserMessage "hello"] None (Memory.world ∅)
            (mkStreamingChatResponse Memory.broken_stream) ∅ _ eq_refl).
  discriminate.
Defined.

Lemma chat_json_keeps_answer_witness :
  fst (chat Memory.uuid4_at Memory.chunk_json Memory.app
         (mkChatRequest [UserMessage "hello"] false None) (Memory.world ∅))
  = Return (JSONChatResponse (mkChatResponse "uuid-0" "an answer")).
Proof.
  exact (f_equal fst
           (chat_json_keeps_answer Memory.uuid4_at Memory.chunk_json Memory.app
              [UserMessage "hello"] None (Memory.world ∅) (UserMessage "hello")
              (mkChatResponse "engine-0" "an answer") ∅ eq_refl eq_refl)).
Defined.



Lemma default_engines_construction_witness :
  let lib := Memory.library (Return YNull) (Return tt) in
  trace (snd (_init_engines Memory.environ_default lib (Memory.world ∅)))
  = [Call_Tokenizer_initialize; Call_KnowledgeBase "canopy--test"; Call_ContextEngine;
     Call_OpenAILLM; Call_ChatEngine; Call_connect]
  /\ is_Some (bound (globals (snd (_init_engines Memory.environ_default lib
                                     (Memory.world ∅))))).
Proof.
  intros lib.
  refine (default_engines_construction Memory.environ_default lib (Memory.world ∅) _
            "canopy--test" _ _ _);
    vm_compute; reflexivity.
Defined.

Lemma load_config_unreadable_file_witness :
  let missing := mkException "FileNotFoundError" "No such file or directory" in
  let lib := Memory.library (Raise missing) (Return tt) in
  fst (_init_engines Memory.environ lib (Memory.world ∅))
  = Raise (ConfigError
             "Failed to load config file canopy.yaml. Error: No such file or directory").
Proof.
  intros missing lib.
  refine (f_equal fst
            (load_config_unreadable_file Memory.environ lib (Memory.world ∅)
               "canopy--test" "canopy.yaml" missing ∅ eq_refl _ eq_refl _ eq_refl));
    discriminate.
Defined.

Lemma load_config_bad_chat_engine_witness :
  let bad := mkException "ValueError" "Unknown LLM" in
  let lib := Memory.library_with Memory.mem_kb (Return Memory.with_chat_engine) (Raise bad) in
  exists w',
    _init_engines Memory.environ lib (Memory.world ∅)
    = (Raise (ConfigError ("Failed to initialize chat engine from config file "
                           +:+ "canopy.yaml" +:+ ". Error: " +:+ "Unknown LLM")), w')
    /\ globals w' = unbound
    /\ last (log w')
       = Some (mkLogRecord ERROR
                 "Failed to initialize chat engine from config file canopy.yaml" (Some bad))
    /\ last (trace w')
       = Some (Call_ChatEngine_from_config (YMap [("llm", YStr "OpenAILLM")])).
Proof.
  intros bad lib.
  refine (load_config_bad_chat_engine Memory.environ lib (Memory.world ∅)
            "canopy--test" "canopy.yaml" [("chat_engine", YMap [("llm", YStr "OpenAILLM")])]
            (YMap [("llm", YStr "OpenAILLM")]) bad ∅ ∅ ∅
            eq_refl _ eq_refl _ eq_refl eq_refl eq_refl eq_refl);
    discriminate.
Defined.

Lemma connect_failure_propagates_witness :
  let ce := Memory.mem_chat_engine Memory.two_chunks
              (Memory.mem_context_engine (Memory.mem_kb_unreachable "from-config"))
              Memory.mem_llm in
  let lib := Memory.library_with Memory.mem_kb (Return Memory.with_chat_engine) (Return ce) in
  exists w',
    _init_engines Memory.environ lib (Memory.world ∅)
    = (Raise (mkException "RuntimeError" "index does not exist"), w')
    /\ is_Some (bound (globals w'))
    /\ last (trace w') = Some Call_connect.
Proof.
  intros ce lib.
  refine (connect_failure_propagates Memory.environ lib (Memory.world ∅)
            "canopy--test" "canopy.yaml" [("chat_engine", YMap [("llm", YStr "OpenAILLM")])]
            (YMap [("llm", YStr "OpenAILLM")]) ce
            (mkException "RuntimeError" "index does not exist") ∅ ∅ ∅ ∅
            eq_refl _ eq_refl _ eq_refl eq_refl eq_refl eq_refl eq_refl);
    discriminate.
Defined.

Lemma init_engines_fails_without_chat_engine_witness :
  let lib := Memory.library (Return (YSeq [YStr "chat_engine"])) (Return tt) in
  exists e w',
    _init_engines Memory.environ lib (Memory.world ∅) = (Raise e, w')
    /\ globals w' = unbound.
Proof.
  intros lib.
  refine (init_engines_fails_without_chat_engine Memory.environ lib "canopy.yaml"
            (Memory.world ∅) eq_refl _ _); [discriminate |].
  intros x config x' [= <- _]. reflexivity.
Defined.

Lemma start_config_file_overrides_witness :
  getenv (start_environ Memory.environ (Some "other.yaml")) "CANOPY_CONFIG_FILE"
  = Some "other.yaml"
  /\ getenv (start_environ Memory.environ (Some "other.yaml")) "INDEX_NAME"
     = Some "canopy--test".
Proof.
  destruct (start_config_file_overrides Memory.environ
              (Memory.library (Return YNull) (Return tt))
              "other.yaml" "canopy--test" (Memory.world ∅))
    as (H1 & H2 & _); [discriminate | reflexivity | discriminate |].
  split; [exact H1 |]. rewrite H2; [reflexivity | discriminate].
Defined.

Lemma shutdown_interrupts_parent_of_worker_witness :
  shutdown Memory.worker Memory.os_kill (Memory.world ∅)
  = (Return mkShutdownResponse,
     mkWorld ∅ 0 [mkLogRecord INFO "Shutting down" None] [] unbound).
Proof.
  exact (shutdown_interrupts_parent_of_worker Memory.os_kill Memory.worker
           EmptyString "-1" (Memory.world ∅) eq_refl).
Defined.

Lemma shutdown_interrupts_itself_witness :
  let main := mkCurrentProcess "MainProcess" 4000 None in
  (forall pre post, proc_name main <> pre +:+ "SpawnProcess" +:+ post)
  /\ shutdown main Memory.os_kill (Memory.world ∅)
     = (Return mkShutdownResponse,
        mkWorld ∅ 0 [mkLogRecord INFO "Shutting down" None] [] unbound).
Proof.
  intros main.
  assert (H : forall pre post, proc_name main <> pre +:+ "SpawnProcess" +:+ post).
  { intros pre post Hname.
    assert (Hc : contains "SpawnProcess" (proc_name main) = true)
      by (apply contains_spec; eauto).
    discriminate Hc. }
  split; [exact H |].
  exact (shutdown_interrupts_itself Memory.os_kill main (Memory.world ∅) H).
Defined.
